(** * Optional-capability activation in cmd/main.go (addon-controller)

    A shallow embedding of the bootstrap code that probes for the CAPI and
    Flux CRDs, retries on errors, attaches late watches or starts the CRD
    watcher, and of the two CRD handlers that restart the process.

    Effects are modelled by explicit state passing: the state is the
    chronological trace of the calls the code makes to its collaborators
    (API client, logger, time.Sleep, syscall.Kill, reconcilers, manager), and
    the answers of those collaborators come from an environment of oracles
    indexed by the number of earlier calls of the same kind. *)

From Stdlib Require Import String List ZArith Bool Lia PeanoNat.
Import ListNotations.
Open Scope string_scope.
Open Scope list_scope.

(** ** Data *)

(** context.Context: the code never inspects it, it only forwards it. *)
Record Context := { ctxDone : bool }.

(** error values returned by client.Get; [apierrors.IsNotFound] tells the
    two classes apart. *)
Inductive APIError :=
| NotFound
| OtherError (cause : string).

Definition IsNotFound (e : APIError) : bool :=
  match e with
  | NotFound => true
  | OtherError _ => false
  end.

(** fmt.Sprintf("%v", err) *)
Definition errString (e : APIError) : string :=
  match e with
  | NotFound => "not found"
  | OtherError c => c
  end.

(** schema.GroupVersionKind *)
Record GroupVersionKind := {
  Group : string;
  Version : string;
  Kind : string
}.

(** clusterv1.GroupVersion.Group and sourcev1.GroupVersion.Group *)
Definition clusterv1_Group : string := "cluster.x-k8s.io".
Definition sourcev1_Group : string := "source.toolkit.fluxcd.io".

Inductive Signal := SIGTERM.

(** the three controllers built in main *)
Inductive ControllerKind := ClusterProfile | Profile | ClusterSummary.

(** the two function values handed to crd.WatchCustomResourceDefinition *)
Inductive HandlerName := CapiCRDHandler | FluxCRDHandler.

(** the reconcilers of package controllers; their fields play no part here *)
Inductive ClusterProfileReconciler := TheClusterProfileReconciler.
Inductive ProfileReconciler := TheProfileReconciler.
Inductive ClusterSummaryReconciler := TheClusterSummaryReconciler.

(** a Go pointer: [None] is nil *)
Definition Ptr (A : Type) := option A.

(** goroutines started by startWatchers, with the arguments that matter *)
Inductive Goroutine :=
| GoCapiWatchers (clusterProfileReconciler : Ptr ClusterProfileReconciler)
                 (profileReconciler : Ptr ProfileReconciler)
                 (clusterSummaryReconciler : Ptr ClusterSummaryReconciler)
| GoFluxWatchers (clusterSummaryReconciler : Ptr ClusterSummaryReconciler).

Inductive LogLevel := LvlDefault | LvlLogInfo.

(** calls observable from outside, in the order they are made *)
Inductive Event :=
| EvGet (ctx : Context) (name : string)
| EvSleep (seconds : Z)
| EvLog (lvl : LogLevel) (msg : string)
| EvLogError (msg : string)
| EvGoWatchCRD (ctx : Context) (h : HandlerName)
| EvWatchForCAPI (k : ControllerKind)
| EvWatchForFlux
| EvKill (pid : Z) (sig : Signal)
| EvSetup (k : ControllerKind)
| EvAddHealthzCheck
| EvAddReadyzCheck
| EvSetVersion
| EvAddDefaultIndexes
| EvGo (g : Goroutine)
| EvMgrStart.

Definition Trace := list Event.

Definition isGet (e : Event) : bool :=
  match e with EvGet _ _ => true | _ => false end.
Definition isSleep (e : Event) : bool :=
  match e with EvSleep _ => true | _ => false end.
Definition isLog (e : Event) : bool :=
  match e with EvLog _ _ => true | _ => false end.
Definition isGoWatchCRD (e : Event) : bool :=
  match e with EvGoWatchCRD _ _ => true | _ => false end.
Definition isWatchForCAPI (k : ControllerKind) (e : Event) : bool :=
  match e, k with
  | EvWatchForCAPI ClusterProfile, ClusterProfile => true
  | EvWatchForCAPI Profile, Profile => true
  | EvWatchForCAPI ClusterSummary, ClusterSummary => true
  | _, _ => false
  end.
Definition isWatchForFlux (e : Event) : bool :=
  match e with EvWatchForFlux => true | _ => false end.
Definition isAttach (e : Event) : bool :=
  match e with EvWatchForCAPI _ | EvWatchForFlux => true | _ => false end.
Definition isKill (e : Event) : bool :=
  match e with EvKill _ _ => true | _ => false end.
Definition isMgrStart (e : Event) : bool :=
  match e with EvMgrStart => true | _ => false end.

Definition count (p : Event -> bool) (tr : Trace) : nat :=
  length (filter p tr).

(** the collaborators' answers; [n] is the number of earlier calls of the
    same kind in the trace *)
Record Env := {
  getCRD : Context -> nat -> string -> option APIError;
  watchForCAPI : ControllerKind -> nat -> option string;
  watchForFlux : nat -> option string;
  killErr : nat -> option string;
  setupErr : ControllerKind -> option string;
  healthzErr : option string;
  readyzErr : option string;
  indexErr : option string;
  mgrStartErr : option string;
  pid : Z;
  (** the CRD events the informer of crd.WatchCustomResourceDefinition
      delivers to its handler when started with a given context
      (libsveltos, outside src/) *)
  crdEvents : Context -> list GroupVersionKind
}.

(** ** The monad: outcome and trace *)

Inductive Outcome (A : Type) :=
| Returned (a : A)
| Panicked (msg : string)
| Exited (code : Z)
| Running.
Arguments Returned {A} a.
Arguments Panicked {A} msg.
Arguments Exited {A} code.
Arguments Running {A}.

Definition M (A : Type) := Trace -> Outcome A * Trace.

Definition ret {A} (a : A) : M A := fun tr => (Returned a, tr).

Definition bind {A B} (m : M A) (f : A -> M B) : M B :=
  fun tr =>
    match m tr with
    | (Returned a, tr') => f a tr'
    | (Panicked msg, tr') => (Panicked msg, tr')
    | (Exited c, tr') => (Exited c, tr')
    | (Running, tr') => (Running, tr')
    end.

Notation "x <- m ;; k" := (bind m (fun x => k))
  (at level 61, m at next level, right associativity).
Notation "m ;;; k" := (bind m (fun _ => k))
  (at level 61, right associativity).

Definition emit (e : Event) : M unit := fun tr => (Returned tt, tr ++ [e]).
Definition panic {A} (msg : string) : M A := fun tr => (Panicked msg, tr).
Definition os_Exit {A} (code : Z) : M A := fun tr => (Exited code, tr).
Definition running {A} : M A := fun tr => (Running, tr).

(** Go's int on the 64-bit targets the controller is built for *)
Definition wrap_int (z : Z) : Z :=
  ((z + 2 ^ 63) mod 2 ^ 64 - 2 ^ 63)%Z.

Section Program.

Variable env : Env.

(** *** Collaborators *)

Definition client_Get (ctx : Context) (name : string) : M (option APIError) :=
  fun tr => (Returned (getCRD env ctx (count isGet tr) name),
             tr ++ [EvGet ctx name]).

Definition time_Sleep (seconds : Z) : M unit := emit (EvSleep seconds).

Definition log_Info (lvl : LogLevel) (msg : string) : M unit :=
  emit (EvLog lvl msg).

Definition log_Error (msg : string) : M unit := emit (EvLogError msg).

Definition syscall_Getpid : M Z := ret (pid env).

Definition syscall_Kill (p : Z) (sig : Signal) : M (option string) :=
  fun tr => (Returned (killErr env (count isKill tr)), tr ++ [EvKill p sig]).

(** r.WatchForCAPI(mgr, controller): the method body is in package
    controllers; on a nil receiver (whose controller is nil as well) the
    call dereferences nil. *)
Definition WatchForCAPI {A} (k : ControllerKind) (r : Ptr A)
  : M (option string) :=
  match r with
  | None => panic "nil pointer dereference"
  | Some _ =>
      fun tr => (Returned (watchForCAPI env k (count (isWatchForCAPI k) tr)),
                 tr ++ [EvWatchForCAPI k])
  end.

Definition WatchForFlux (r : Ptr ClusterSummaryReconciler)
  : M (option string) :=
  match r with
  | None => panic "nil pointer dereference"
  | Some _ =>
      fun tr => (Returned (watchForFlux env (count isWatchForFlux tr)),
                 tr ++ [EvWatchForFlux])
  end.

(** *** capiCRDHandler, fluxCRDHandler *)

Definition capiCRDHandler (gvk : GroupVersionKind) : M unit :=
  if String.eqb (Group gvk) clusterv1_Group then
    p <- syscall_Getpid ;;
    killErr <- syscall_Kill p SIGTERM ;;
    match killErr with
    | Some _ => panic "kill -TERM failed"
    | None => ret tt
    end
  else ret tt.

Definition fluxCRDHandler (gvk : GroupVersionKind) : M unit :=
  if String.eqb (Group gvk) sourcev1_Group then
    p <- syscall_Getpid ;;
    killErr <- syscall_Kill p SIGTERM ;;
    match killErr with
    | Some _ => panic "kill -TERM failed"
    | None => ret tt
    end
  else ret tt.

Definition handlerOf (h : HandlerName) : GroupVersionKind -> M unit :=
  match h with
  | CapiCRDHandler => capiCRDHandler
  | FluxCRDHandler => fluxCRDHandler
  end.

(** crd.WatchCustomResourceDefinition(ctx, cfg, handler, logger): the
    library function is outside src/; its informer calls the handler on
    every CRD event it receives, here the events of [crdEvents env ctx].
    What the library does on its own account (its log lines, a failure to
    build its informer) is not part of this file: the calls recorded on the
    watch path are those of the pipeline and of its handler. *)
Fixpoint deliver (h : GroupVersionKind -> M unit)
         (evs : list GroupVersionKind) : M unit :=
  match evs with
  | [] => ret tt
  | gvk :: evs' => h gvk ;;; deliver h evs'
  end.

(** go crd.WatchCustomResourceDefinition(...): the caller returns right
    after the go statement, so the goroutine's calls are appended to the
    caller's trace. *)
Definition go_WatchCustomResourceDefinition (ctx : Context)
           (h : HandlerName) : M unit :=
  emit (EvGoWatchCRD ctx h) ;;;
  deliver (handlerOf h) (crdEvents env ctx).

(** *** isCAPIInstalled, isFluxInstalled *)

Definition isCAPIInstalled (ctx : Context) : M (bool * option APIError) :=
  err <- client_Get ctx "clusters.cluster.x-k8s.io" ;;
  match err with
  | Some e =>
      if IsNotFound e then ret (false, None)
      else ret (false, Some e)
  | None => ret (true, None)
  end.

Definition isFluxInstalled (ctx : Context) : M (bool * option APIError) :=
  err <- client_Get ctx "gitrepositories.source.toolkit.fluxcd.io" ;;
  match err with
  | Some e =>
      if IsNotFound e then ret (false, None)
      else ret (false, Some e)
  | None => ret (true, None)
  end.

(** *** capiWatchers, fluxWatchers *)

Definition maxRetries : Z := 20.

(** how one pass through the loop body ends *)
Inductive LoopCtl := Continue | Return.

(** the else-branch of capiWatchers' loop body, once CAPI is present *)
Definition capiAttach
           (clusterProfileReconciler : Ptr ClusterProfileReconciler)
           (profileReconciler : Ptr ProfileReconciler)
           (clusterSummaryReconciler : Ptr ClusterSummaryReconciler)
  : M LoopCtl :=
  log_Info LvlLogInfo "CAPI present." ;;;
  c1 <- match clusterProfileReconciler with
        | Some _ =>
            log_Info LvlLogInfo "start clusterProfile CAPI watcher." ;;;
            err <- WatchForCAPI ClusterProfile clusterProfileReconciler ;;
            match err with
            | Some e =>
                log_Info LvlLogInfo
                  ("failed to start clusterProfile CAPI watcher: " ++ e)%string ;;;
                ret Continue
            | None => ret Return
            end
        | None => ret Return
        end ;;
  match c1 with
  | Continue => ret Continue
  | Return =>
      c2 <- match profileReconciler with
            | Some _ =>
                log_Info LvlLogInfo "start profile CAPI watcher." ;;;
                err <- WatchForCAPI Profile profileReconciler ;;
                match err with
                | Some e =>
                    log_Info LvlLogInfo
                      ("failed to start profile CAPI watcher: " ++ e)%string ;;;
                    ret Continue
                | None => ret Return
                end
            | None => ret Return
            end ;;
      match c2 with
      | Continue => ret Continue
      | Return =>
          err <- WatchForCAPI ClusterSummary clusterSummaryReconciler ;;
          match err with
          | Some _ => ret Continue
          | None => ret Return
          end
      end
  end.

Fixpoint capiWatchers_loop (ctx : Context)
         (clusterProfileReconciler : Ptr ClusterProfileReconciler)
         (profileReconciler : Ptr ProfileReconciler)
         (clusterSummaryReconciler : Ptr ClusterSummaryReconciler)
         (fuel : nat) (retries : Z) : M unit :=
  match fuel with
  | O => running
  | S fuel' =>
      r <- isCAPIInstalled ctx ;;
      match r with
      | (_, Some err) =>
          (if (retries <? maxRetries)%Z then
             log_Info LvlDefault
               ("failed to verify if CAPI is present: " ++ errString err)%string ;;;
             time_Sleep 1
           else ret tt) ;;;
          capiWatchers_loop ctx clusterProfileReconciler profileReconciler
            clusterSummaryReconciler fuel' (wrap_int (retries + 1))
      | (capiPresent, None) =>
          c <- (if negb capiPresent then
                  log_Info LvlLogInfo
                    "CAPI currently not present. Starting CRD watcher" ;;;
                  go_WatchCustomResourceDefinition ctx CapiCRDHandler ;;;
                  ret Return
                else
                  capiAttach clusterProfileReconciler profileReconciler
                    clusterSummaryReconciler) ;;
          match c with
          | Continue =>
              capiWatchers_loop ctx clusterProfileReconciler
                profileReconciler clusterSummaryReconciler fuel' retries
          | Return => ret tt
          end
      end
  end.

Definition capiWatchers (ctx : Context)
           (clusterProfileReconciler : Ptr ClusterProfileReconciler)
           (profileReconciler : Ptr ProfileReconciler)
           (clusterSummaryReconciler : Ptr ClusterSummaryReconciler)
           (fuel : nat) : M unit :=
  capiWatchers_loop ctx clusterProfileReconciler profileReconciler
    clusterSummaryReconciler fuel 0.

Definition fluxAttach
           (clusterSummaryReconciler : Ptr ClusterSummaryReconciler)
  : M LoopCtl :=
  log_Info LvlLogInfo "Flux present." ;;;
  err <- WatchForFlux clusterSummaryReconciler ;;
  match err with
  | Some _ => ret Continue
  | None => ret Return
  end.

Fixpoint fluxWatchers_loop (ctx : Context)
         (clusterSummaryReconciler : Ptr ClusterSummaryReconciler)
         (fuel : nat) (retries : Z) : M unit :=
  match fuel with
  | O => running
  | S fuel' =>
      r <- isFluxInstalled ctx ;;
      match r with
      | (_, Some err) =>
          (if (retries <? maxRetries)%Z then
             log_Info LvlDefault
               ("failed to verify if Flux is present: " ++ errString err)%string ;;;
             time_Sleep 1
           else ret tt) ;;;
          fluxWatchers_loop ctx clusterSummaryReconciler fuel'
            (wrap_int (retries + 1))
      | (fluxPresent, None) =>
          c <- (if negb fluxPresent then
                  log_Info LvlLogInfo
                    "Flux currently not present. Starting CRD watcher" ;;;
                  go_WatchCustomResourceDefinition ctx FluxCRDHandler ;;;
                  ret Return
                else fluxAttach clusterSummaryReconciler) ;;
          match c with
          | Continue =>
              fluxWatchers_loop ctx clusterSummaryReconciler fuel' retries
          | Return => ret tt
          end
      end
  end.

Definition fluxWatchers (ctx : Context)
           (clusterSummaryReconciler : Ptr ClusterSummaryReconciler)
           (fuel : nat) : M unit :=
  fluxWatchers_loop ctx clusterSummaryReconciler fuel 0.

(** *** startWatchers and the part of main that builds the controllers *)

Definition go (g : Goroutine) : M unit := emit (EvGo g).

Definition startWatchers
           (clusterProfileReconciler : Ptr ClusterProfileReconciler)
           (profileReconciler : Ptr ProfileReconciler)
           (clusterSummaryReconciler : Ptr ClusterSummaryReconciler)
  : M unit :=
  go (GoCapiWatchers clusterProfileReconciler profileReconciler
        clusterSummaryReconciler) ;;;
  go (GoFluxWatchers clusterSummaryReconciler).

(** r := getXReconciler(mgr); r.SetupWithManager(mgr) and main's check of
    its error *)
Definition setupOrExit {A} (k : ControllerKind) (r : A) : M (Ptr A) :=
  emit (EvSetup k) ;;;
  match setupErr env k with
  | Some _ => log_Error "unable to create controller" ;;; os_Exit 1
  | None => ret (Some r)
  end.

Record Reconcilers := {
  clusterProfileReconciler : Ptr ClusterProfileReconciler;
  profileReconciler : Ptr ProfileReconciler;
  clusterSummaryReconciler : Ptr ClusterSummaryReconciler
}.

(** main, lines 138-165: the reconcilers that exist after set-up; the two
    optional ones start as nil *)
Definition mainReconcilers (shardKey : string) : M Reconcilers :=
  rs <- (if String.eqb shardKey "" then
           cp <- setupOrExit ClusterProfile TheClusterProfileReconciler ;;
           p <- setupOrExit Profile TheProfileReconciler ;;
           ret (cp, p)
         else ret (None, None)) ;;
  cs <- setupOrExit ClusterSummary TheClusterSummaryReconciler ;;
  ret {| clusterProfileReconciler := fst rs;
         profileReconciler := snd rs;
         clusterSummaryReconciler := cs |}.

Definition setupIndexes : M unit :=
  emit EvAddDefaultIndexes ;;;
  match indexErr env with
  | Some _ => log_Error "unable to setup indexes" ;;; os_Exit 1
  | None => ret tt
  end.

Definition setupChecks : M unit :=
  emit EvAddHealthzCheck ;;;
  match healthzErr env with
  | Some _ => log_Error "unable to set up health check" ;;; os_Exit 1
  | None =>
      emit EvAddReadyzCheck ;;;
      match readyzErr env with
      | Some _ => log_Error "unable to set up ready check" ;;; os_Exit 1
      | None => ret tt
      end
  end.

(** main, from the controllers' set-up (line 138) to mgr.Start *)
Definition main (shardKey : string) : M unit :=
  rs <- mainReconcilers shardKey ;;
  setupChecks ;;;
  emit EvSetVersion ;;;
  setupIndexes ;;;
  startWatchers (clusterProfileReconciler rs) (profileReconciler rs)
    (clusterSummaryReconciler rs) ;;;
  log_Info LvlDefault "starting manager" ;;;
  emit EvMgrStart ;;;
  match mgrStartErr env with
  | Some _ => log_Error "problem running manager" ;;; os_Exit 1
  | None => ret tt
  end.

(** the calls a goroutine makes, given enough fuel for its loop *)
Definition goroutineBody (ctx : Context) (g : Goroutine) (fuel : nat)
  : M unit :=
  match g with
  | GoCapiWatchers cp p cs => capiWatchers ctx cp p cs fuel
  | GoFluxWatchers cs => fluxWatchers ctx cs fuel
  end.

End Program.

(** ** Goroutines

    Each thread is deterministic once the environment is fixed, so a thread
    is represented by the calls it still has to make.  A schedule names, at
    every step, the thread that makes its next call: [0] is the main thread
    and [S i] the i-th goroutine in the order of the go statements.  A
    goroutine exists only once its go statement has run; nothing else orders
    the threads (the code uses no channel, WaitGroup or lock). *)

Record Proc := {
  mainRest : Trace;
  routines : list Trace
}.

Fixpoint stepRoutine (i : nat) (gs : list Trace)
  : option (Event * list Trace) :=
  match gs, i with
  | [], _ => None
  | g :: gs', O =>
      match g with
      | [] => None
      | e :: g' => Some (e, g' :: gs')
      end
  | g :: gs', S i' =>
      match stepRoutine i' gs' with
      | Some (e, gs'') => Some (e, g :: gs'')
      | None => None
      end
  end.

Section Scheduling.

Variable env : Env.
Variable ctx : Context.
Variable fuel : nat.

Definition spawned (e : Event) : list Trace :=
  match e with
  | EvGo g => [snd (goroutineBody env ctx g fuel [])]
  | _ => []
  end.

Fixpoint runSchedule (sched : list nat) (p : Proc) : Trace :=
  match sched with
  | [] => []
  | O :: sched' =>
      match mainRest p with
      | [] => runSchedule sched' p
      | e :: rest =>
          e :: runSchedule sched'
                 {| mainRest := rest; routines := routines p ++ spawned e |}
      end
  | S i :: sched' =>
      match stepRoutine i (routines p) with
      | None => runSchedule sched' p
      | Some (e, gs) =>
          e :: runSchedule sched' {| mainRest := mainRest p; routines := gs |}
      end
  end.

(** the process from the controllers' set-up on, under a schedule *)
Definition process (shardKey : string) (sched : list nat) : Trace :=
  runSchedule sched
    {| mainRest := snd (main env shardKey []); routines := [] |}.

End Scheduling.

(** ** The specification's vocabulary *)

(** PresenceResult of the specification, and how the Go pair (bool, error)
    of the probers reads as one *)
Inductive PresenceResult :=
| Present
| Absent
| TransientError (cause : APIError).

Definition presenceOf (r : bool * option APIError) : PresenceResult :=
  match r with
  | (_, Some e) => TransientError e
  | (true, None) => Present
  | (false, None) => Absent
  end.

Definition capiCRDName : string := "clusters.cluster.x-k8s.io".
Definition fluxCRDName : string := "gitrepositories.source.toolkit.fluxcd.io".

(** no attach call made after the manager's start call *)
Definition attachBeforeStart (tr : Trace) : Prop :=
  forall pre post, tr = pre ++ EvMgrStart :: post -> count isAttach post = 0.

Definition isGo (e : Event) : bool :=
  match e with EvGo _ => true | _ => false end.

(** the context argument of a call, forgotten *)
Definition eraseCtx (e : Event) : Event :=
  match e with
  | EvGet _ name => EvGet {| ctxDone := false |} name
  | EvGoWatchCRD _ h => EvGoWatchCRD {| ctxDone := false |} h
  | _ => e
  end.

(** ** Environments used as concrete inputs *)

Definition live : Context := {| ctxDone := false |}.
Definition cancelled : Context := {| ctxDone := true |}.

Definition capiCreated : GroupVersionKind :=
  {| Group := "cluster.x-k8s.io"; Version := "v1beta1"; Kind := "Cluster" |}.
Definition fluxCreated : GroupVersionKind :=
  {| Group := "source.toolkit.fluxcd.io"; Version := "v1";
     Kind := "GitRepository" |}.
Definition otherCreated : GroupVersionKind :=
  {| Group := "cert-manager.io"; Version := "v1"; Kind := "Certificate" |}.

(** a watcher that delivers [evs] unless its context is already done *)
Definition untilDone (evs : list GroupVersionKind) (ctx : Context)
  : list GroupVersionKind :=
  if ctxDone ctx then [] else evs.

(** everything succeeds, both CRDs are installed *)
Definition presentEnv : Env :=
  {| getCRD := fun _ _ _ => None;
     watchForCAPI := fun _ _ => None;
     watchForFlux := fun _ => None;
     killErr := fun _ => None;
     setupErr := fun _ => None;
     healthzErr := None;
     readyzErr := None;
     indexErr := None;
     mgrStartErr := None;
     pid := 1;
     crdEvents := untilDone [otherCreated; capiCreated; fluxCreated] |}.

(** both CRDs are missing *)
Definition absentEnv : Env :=
  {| getCRD := fun _ _ _ => Some NotFound;
     watchForCAPI := fun _ _ => None;
     watchForFlux := fun _ => None;
     killErr := fun _ => None;
     setupErr := fun _ => None;
     healthzErr := None;
     readyzErr := None;
     indexErr := None;
     mgrStartErr := None;
     pid := 1;
     crdEvents := untilDone [otherCreated; capiCreated; fluxCreated] |}.

(** every read of a CRD fails with an error other than not-found, and no
    CRD is ever created *)
Definition transientEnv : Env :=
  {| getCRD := fun _ _ _ => Some (OtherError "forbidden");
     watchForCAPI := fun _ _ => None;
     watchForFlux := fun _ => None;
     killErr := fun _ => None;
     setupErr := fun _ => None;
     healthzErr := None;
     readyzErr := None;
     indexErr := None;
     mgrStartErr := None;
     pid := 1;
     crdEvents := fun _ => [] |}.

(** the CRDs are installed, and every read made with a context that is
    done fails with the context's error *)
Definition shutdownEnv : Env :=
  {| getCRD := fun ctx _ _ =>
                 if ctxDone ctx then Some (OtherError "context canceled")
                 else None;
     watchForCAPI := fun _ _ => None;
     watchForFlux := fun _ => None;
     killErr := fun _ => None;
     setupErr := fun _ => None;
     healthzErr := None;
     readyzErr := None;
     indexErr := None;
     mgrStartErr := None;
     pid := 1;
     crdEvents := untilDone [otherCreated; capiCreated; fluxCreated] |}.

(** both CRDs are installed, the first registration of each watch fails *)
Definition attachFailsOnceEnv : Env :=
  {| getCRD := fun _ _ _ => None;
     watchForCAPI := fun _ n => match n with
                                | O => Some "no kind is registered"
                                | S _ => None
                                end;
     watchForFlux := fun n => match n with
                              | O => Some "no kind is registered"
                              | S _ => None
                              end;
     killErr := fun _ => None;
     setupErr := fun _ => None;
     healthzErr := None;
     readyzErr := None;
     indexErr := None;
     mgrStartErr := None;
     pid := 1;
     crdEvents := untilDone [otherCreated; capiCreated; fluxCreated] |}.

(** the CRD is installed at the first read and gone at the second, and the
    registration in between fails *)
Definition flickerEnv : Env :=
  {| getCRD := fun _ n _ => match n with
                            | O => None
                            | S _ => Some NotFound
                            end;
     watchForCAPI := fun _ _ => Some "no kind is registered";
     watchForFlux := fun _ => Some "no kind is registered";
     killErr := fun _ => None;
     setupErr := fun _ => None;
     healthzErr := None;
     readyzErr := None;
     indexErr := None;
     mgrStartErr := None;
     pid := 1;
     crdEvents := untilDone [otherCreated; capiCreated; fluxCreated] |}.

(** the kill system call fails *)
Definition killFailsEnv : Env :=
  {| getCRD := fun _ _ _ => Some NotFound;
     watchForCAPI := fun _ _ => None;
     watchForFlux := fun _ => None;
     killErr := fun _ => Some "operation not permitted";
     setupErr := fun _ => None;
     healthzErr := None;
     readyzErr := None;
     indexErr := None;
     mgrStartErr := None;
     pid := 1;
     crdEvents := untilDone [otherCreated; capiCreated; fluxCreated] |}.

(** ** Vocabulary of the statements *)

(** [appends P m]: running [m] only adds calls satisfying [P] *)
Definition appends {A} (P : Event -> bool) (m : M A) : Prop :=
  forall tr, exists added,
    snd (m tr) = tr ++ added /\ forallb P added = true.

(** the calls a pipeline can make *)
Definition pipelineCall (e : Event) : bool :=
  match e with
  | EvGet _ _ | EvSleep _ | EvLog _ _ | EvGoWatchCRD _ _
  | EvWatchForCAPI _ | EvWatchForFlux | EvKill _ _ => true
  | _ => false
  end.

(** the calls a pipeline makes when it does not take the watch path *)
Definition probeOrAttachCall (e : Event) : bool :=
  match e with
  | EvGet _ _ | EvSleep _ | EvLog _ _
  | EvWatchForCAPI _ | EvWatchForFlux => true
  | _ => false
  end.

(** what a failed probe adds to the trace: the read and, while the counter
    is below maxRetries, a log line and a one-second sleep *)
Definition failedProbe (ctx : Context) (name what cause : string)
           (retries : Z) : Trace :=
  EvGet ctx name ::
  (if (retries <? maxRetries)%Z then
     [EvLog LvlDefault
        ("failed to verify if " ++ what ++ " is present: " ++ cause)%string;
      EvSleep 1]
   else []).

Definition noWatchNoAttach (tr : Trace) : Prop :=
  count isGoWatchCRD tr = 0 /\ count isAttach tr = 0.

(** the calls of one registration that succeeds, or none on a nil
    reconciler *)
Definition startClusterProfile (cp : Ptr ClusterProfileReconciler) : Trace :=
  match cp with
  | Some _ => [EvLog LvlLogInfo "start clusterProfile CAPI watcher.";
               EvWatchForCAPI ClusterProfile]
  | None => []
  end.

Definition startProfile (p : Ptr ProfileReconciler) : Trace :=
  match p with
  | Some _ => [EvLog LvlLogInfo "start profile CAPI watcher.";
               EvWatchForCAPI Profile]
  | None => []
  end.

(** the answer the next WatchForCAPI call on controller [k] gets *)
Definition nextCAPI (env : Env) (k : ControllerKind) (tr : Trace)
  : option string :=
  watchForCAPI env k (count (isWatchForCAPI k) tr).

(** the registration on [stage] fails with [e], the earlier ones succeed *)
Definition capiFailsAt (env : Env) (cp : Ptr ClusterProfileReconciler)
           (p : Ptr ProfileReconciler) (cs : Ptr ClusterSummaryReconciler)
           (tr : Trace) (stage : ControllerKind) (e : string) : Prop :=
  match stage with
  | ClusterProfile =>
      cp <> None /\ nextCAPI env ClusterProfile tr = Some e
  | Profile =>
      (cp <> None -> nextCAPI env ClusterProfile tr = None) /\
      p <> None /\ nextCAPI env Profile tr = Some e
  | ClusterSummary =>
      (cp <> None -> nextCAPI env ClusterProfile tr = None) /\
      (p <> None -> nextCAPI env Profile tr = None) /\
      cs <> None /\ nextCAPI env ClusterSummary tr = Some e
  end.

(** what an attach pass adds to the trace when it fails on [stage] *)
Definition capiFailedAttach (cp : Ptr ClusterProfileReconciler)
           (p : Ptr ProfileReconciler) (stage : ControllerKind) (e : string)
  : Trace :=
  EvLog LvlLogInfo "CAPI present." ::
  match stage with
  | ClusterProfile =>
      [EvLog LvlLogInfo "start clusterProfile CAPI watcher.";
       EvWatchForCAPI ClusterProfile;
       EvLog LvlLogInfo
         ("failed to start clusterProfile CAPI watcher: " ++ e)%string]
  | Profile =>
      startClusterProfile cp ++
      [EvLog LvlLogInfo "start profile CAPI watcher.";
       EvWatchForCAPI Profile;
       EvLog LvlLogInfo
         ("failed to start profile CAPI watcher: " ++ e)%string]
  | ClusterSummary =>
      startClusterProfile cp ++ startProfile p ++
      [EvWatchForCAPI ClusterSummary]
  end.

(** what an attach pass adds to the trace when every registration
    succeeds *)
Definition capiAttached (cp : Ptr ClusterProfileReconciler)
           (p : Ptr ProfileReconciler) : Trace :=
  EvLog LvlLogInfo "CAPI present." ::
  startClusterProfile cp ++ startProfile p ++
  [EvWatchForCAPI ClusterSummary].

Definition ptrCount {A} (r : Ptr A) : nat :=
  match r with Some _ => 1 | None => 0 end.

(** the outcome is not a nil dereference, and no CAPI watch was registered
    on the ClusterProfile or Profile controller *)
Definition noNilDereference (r : Outcome unit * Trace) (tr : Trace) : Prop :=
  fst r <> Panicked "nil pointer dereference" /\
  count (isWatchForCAPI ClusterProfile) (snd r) =
    count (isWatchForCAPI ClusterProfile) tr /\
  count (isWatchForCAPI Profile) (snd r) =
    count (isWatchForCAPI Profile) tr.

(** the calls only the main thread makes that matter for the ordering *)
Definition mainCall (e : Event) : bool := isGo e || isMgrStart e.

Definition quiet (g : Trace) : Prop := filter mainCall g = [].

(** two schedules: the main thread runs up to mgr.Start before any
    goroutine makes a call; each goroutine runs to its end as soon as it is
    started *)
Definition mainFirst : list nat :=
  [0; 0; 0; 0; 0; 0; 0; 0; 0; 0; 0; 1; 1; 1; 1; 1; 1; 1; 2; 2; 2].
Definition goroutinesFirst : list nat :=
  [0; 0; 0; 0; 0; 0; 0; 0; 1; 1; 1; 1; 1; 1; 1; 0; 2; 2; 2; 0; 0].

(** two traces with the same calls, up to the context passed along *)
Definition sameCalls (tr tr' : Trace) : Prop :=
  map eraseCtx tr = map eraseCtx tr'.

(** two computations that, from traces with the same calls, end the same
    way after making the same calls *)
Definition simCtx {A} (m m' : M A) : Prop :=
  forall tr tr',
    sameCalls tr tr' ->
    fst (m tr) = fst (m' tr') /\ sameCalls (snd (m tr)) (snd (m' tr')).

(** the calls a failed probe makes: the read, the log line, the sleep *)
Definition failedProbeCall (e : Event) : bool :=
  match e with
  | EvGet _ _ | EvLog _ _ | EvSleep _ => true
  | _ => false
  end.

(** the calls an attach pass makes *)
Definition attachCall (e : Event) : bool :=
  match e with
  | EvLog _ _ | EvWatchForCAPI _ | EvWatchForFlux => true
  | _ => false
  end.

(** the time spent in time.Sleep, in seconds *)
Fixpoint sleptSeconds (tr : Trace) : Z :=
  match tr with
  | [] => 0
  | EvSleep s :: tr' => s + sleptSeconds tr'
  | _ :: tr' => sleptSeconds tr'
  end.

(** the first [k] reads of [name] fail with errors other than not-found and
    the next one answers [a] *)
Definition failsThenAnswers (env : Env) (ctx : Context) (name : string)
           (k : nat) (a : option APIError) : Prop :=
  (forall n, n < k ->
             exists cause, getCRD env ctx n name = Some (OtherError cause)) /\
  getCRD env ctx k name = a.

(** a trace made of probes and registrations only, or of probes and
    registrations, then one start of the CRD watcher with handler [h], then
    termination signals only *)
Definition watchShape (ctx : Context) (h : HandlerName) (tr : Trace) : Prop :=
  forallb probeOrAttachCall tr = true \/
  exists pre kills,
    tr = pre ++ EvGoWatchCRD ctx h :: kills /\
    forallb probeOrAttachCall pre = true /\
    forallb isKill kills = true.

(** the API group a handler reacts to *)
Definition groupOf (h : HandlerName) : string :=
  match h with
  | CapiCRDHandler => clusterv1_Group
  | FluxCRDHandler => sourcev1_Group
  end.

(** the events of a handler's own group *)
Definition matching (h : HandlerName) (evs : list GroupVersionKind)
  : list GroupVersionKind :=
  filter (fun gvk => String.eqb (Group gvk) (groupOf h)) evs.

(** the pipeline has neither dereferenced a nil pointer nor exited the
    process *)
Definition neitherNilNorExit (o : Outcome unit) : Prop :=
  o <> Panicked "nil pointer dereference" /\ forall code, o <> Exited code.

(** a trace without its log lines *)
Definition withoutLogs (tr : Trace) : Trace :=
  filter (fun e => negb (isLog e)) tr.

(** the registrations an attach pass makes when it fails on [stage]: those
    of the non-nil reconcilers before [stage], then the failing one *)
Definition registrationsUpTo (cp : Ptr ClusterProfileReconciler)
           (p : Ptr ProfileReconciler) (stage : ControllerKind) : Trace :=
  match stage with
  | ClusterProfile => [EvWatchForCAPI ClusterProfile]
  | Profile =>
      match cp with
      | Some _ => [EvWatchForCAPI ClusterProfile]
      | None => []
      end ++ [EvWatchForCAPI Profile]
  | ClusterSummary =>
      match cp with
      | Some _ => [EvWatchForCAPI ClusterProfile]
      | None => []
      end ++
      match p with
      | Some _ => [EvWatchForCAPI Profile]
      | None => []
      end ++ [EvWatchForCAPI ClusterSummary]
  end.

(** every set-up step main performs for a given shard key succeeds *)
Definition setupsSucceed (env : Env) (shardKey : string) : Prop :=
  (shardKey = "" ->
   setupErr env ClusterProfile = None /\ setupErr env Profile = None) /\
  setupErr env ClusterSummary = None /\
  healthzErr env = None /\ readyzErr env = None /\ indexErr env = None.

(** the reads fail [k] times with a timeout and then answer [a] *)
Definition lateEnv (k : nat) (a : option APIError) : Env :=
  {| getCRD := fun _ n _ =>
                 if Nat.ltb n k then Some (OtherError "timeout") else a;
     watchForCAPI := fun _ _ => None;
     watchForFlux := fun _ => None;
     killErr := fun _ => None;
     setupErr := fun _ => None;
     healthzErr := None;
     readyzErr := None;
     indexErr := None;
     mgrStartErr := None;
     pid := 1;
     crdEvents := untilDone [otherCreated; capiCreated; fluxCreated] |}.

(** the set-up of the Profile controller fails *)
Definition profileSetupFailsEnv : Env :=
  {| getCRD := fun _ _ _ => None;
     watchForCAPI := fun _ _ => None;
     watchForFlux := fun _ => None;
     killErr := fun _ => None;
     setupErr := fun k => match k with
                          | Profile => Some "no matches for kind"
                          | _ => None
                          end;
     healthzErr := None;
     readyzErr := None;
     indexErr := None;
     mgrStartErr := None;
     pid := 1;
     crdEvents := untilDone [otherCreated; capiCreated; fluxCreated] |}.

(** both CRDs are installed; registering the CAPI watch on the Profile
    controller always fails, the other registrations succeed *)
Definition profileWatchFailsEnv : Env :=
  {| getCRD := fun _ _ _ => None;
     watchForCAPI := fun k _ => match k with
                                | Profile => Some "no kind is registered"
                                | _ => None
                                end;
     watchForFlux := fun _ => None;
     killErr := fun _ => None;
     setupErr := fun _ => None;
     healthzErr := None;
     readyzErr := None;
     indexErr := None;
     mgrStartErr := None;
     pid := 1;
     crdEvents := untilDone [otherCreated; capiCreated; fluxCreated] |}.

(** the arguments main hands to a goroutine: the ClusterSummary reconciler
    is never nil, the other two are nil exactly when a shard key is set *)
Definition startedByMain (shardKey : string) (g : Goroutine) : Prop :=
  match g with
  | GoCapiWatchers cp p cs =>
      cs <> None /\
      (shardKey = "" -> cp <> None /\ p <> None) /\
      (shardKey <> "" -> cp = None /\ p = None)
  | GoFluxWatchers cs => cs <> None
  end.

(** * Properties *)

(** ** Counting calls in a trace *)

Lemma count_app (p : Event -> bool) (a b : Trace) :
  count p (a ++ b) = count p a + count p b.
Proof.
  unfold count. rewrite filter_app, length_app. reflexivity.
Qed.

Lemma count_nil (p : Event -> bool) : count p [] = 0.
Proof. reflexivity. Qed.

Lemma count_cons (p : Event -> bool) (e : Event) (tr : Trace) :
  count p (e :: tr) = (if p e then 1 else 0) + count p tr.
Proof.
  unfold count. simpl. destruct (p e); reflexivity.
Qed.

Lemma count_zero_forall (p : Event -> bool) (tr : Trace) :
  forallb (fun e => negb (p e)) tr = true -> count p tr = 0.
Proof.
  induction tr as [|e tr IH]; simpl; intros H; [reflexivity|].
  apply andb_true_iff in H. destruct H as [He Htr].
  rewrite count_cons, (IH Htr). destruct (p e); [discriminate|reflexivity].
Qed.

(** ** The probers *)

Lemma isCAPIInstalled_run (env : Env) (ctx : Context) (tr : Trace) :
  isCAPIInstalled env ctx tr =
  (Returned match getCRD env ctx (count isGet tr) capiCRDName with
            | Some NotFound => (false, None)
            | Some (OtherError c) => (false, Some (OtherError c))
            | None => (true, None)
            end,
   tr ++ [EvGet ctx capiCRDName]).
Proof.
  unfold isCAPIInstalled, bind, client_Get, capiCRDName.
  destruct (getCRD env ctx (count isGet tr) _) as [[|c]|]; reflexivity.
Qed.

Lemma isFluxInstalled_run (env : Env) (ctx : Context) (tr : Trace) :
  isFluxInstalled env ctx tr =
  (Returned match getCRD env ctx (count isGet tr) fluxCRDName with
            | Some NotFound => (false, None)
            | Some (OtherError c) => (false, Some (OtherError c))
            | None => (true, None)
            end,
   tr ++ [EvGet ctx fluxCRDName]).
Proof.
  unfold isFluxInstalled, bind, client_Get, fluxCRDName.
  destruct (getCRD env ctx (count isGet tr) _) as [[|c]|]; reflexivity.
Qed.

(** C2. Each prober makes exactly one read, of its capability's signalling
    CRD, and nothing else (no sleep, no second read); it returns
    [(false, nil)], that is Absent, on a not-found answer, [(true, nil)],
    that is Present, on a successful read, and [(false, err)], that is
    TransientError, on any other error. *)
Theorem prober_one_read_and_classifies (env : Env) (ctx : Context)
        (tr : Trace) :
  let answer name := getCRD env ctx (count isGet tr) name in
  let classified (a : option APIError) (r : bool * option APIError) :=
    match a with
    | Some NotFound => r = (false, None) /\ presenceOf r = Absent
    | None => r = (true, None) /\ presenceOf r = Present
    | Some (OtherError c) =>
        r = (false, Some (OtherError c)) /\
        presenceOf r = TransientError (OtherError c)
    end in
  (exists r, isCAPIInstalled env ctx tr =
             (Returned r, tr ++ [EvGet ctx capiCRDName]) /\
             classified (answer capiCRDName) r) /\
  (exists r, isFluxInstalled env ctx tr =
             (Returned r, tr ++ [EvGet ctx fluxCRDName]) /\
             classified (answer fluxCRDName) r) /\
  count isGet (snd (isCAPIInstalled env ctx tr)) = count isGet tr + 1 /\
  count isGet (snd (isFluxInstalled env ctx tr)) = count isGet tr + 1 /\
  count isSleep (snd (isCAPIInstalled env ctx tr)) = count isSleep tr /\
  count isSleep (snd (isFluxInstalled env ctx tr)) = count isSleep tr.
Proof.
  cbv zeta. rewrite isCAPIInstalled_run, isFluxInstalled_run. simpl snd.
  rewrite !count_app.
  split; [|split; [|repeat split; rewrite count_cons, count_nil; simpl; lia]].
  - eexists. split; [reflexivity|].
    destruct (getCRD env ctx (count isGet tr) capiCRDName) as [[|c]|];
      split; reflexivity.
  - eexists. split; [reflexivity|].
    destruct (getCRD env ctx (count isGet tr) fluxCRDName) as [[|c]|];
      split; reflexivity.
Qed.

(** ** The CRD handlers *)

Lemma capiCRDHandler_other (env : Env) (gvk : GroupVersionKind) (tr : Trace) :
  Group gvk <> clusterv1_Group ->
  capiCRDHandler env gvk tr = (Returned tt, tr).
Proof.
  intros H. unfold capiCRDHandler.
  apply String.eqb_neq in H. rewrite H. reflexivity.
Qed.

Lemma fluxCRDHandler_other (env : Env) (gvk : GroupVersionKind) (tr : Trace) :
  Group gvk <> sourcev1_Group ->
  fluxCRDHandler env gvk tr = (Returned tt, tr).
Proof.
  intros H. unfold fluxCRDHandler.
  apply String.eqb_neq in H. rewrite H. reflexivity.
Qed.

Lemma capiCRDHandler_match (env : Env) (gvk : GroupVersionKind) (tr : Trace) :
  Group gvk = clusterv1_Group ->
  capiCRDHandler env gvk tr =
  (match killErr env (count isKill tr) with
   | Some _ => Panicked "kill -TERM failed"
   | None => Returned tt
   end, tr ++ [EvKill (pid env) SIGTERM]).
Proof.
  intros H. unfold capiCRDHandler.
  apply String.eqb_eq in H. rewrite H.
  unfold bind, syscall_Getpid, syscall_Kill, ret, panic.
  destruct (killErr env (count isKill tr)); reflexivity.
Qed.

Lemma fluxCRDHandler_match (env : Env) (gvk : GroupVersionKind) (tr : Trace) :
  Group gvk = sourcev1_Group ->
  fluxCRDHandler env gvk tr =
  (match killErr env (count isKill tr) with
   | Some _ => Panicked "kill -TERM failed"
   | None => Returned tt
   end, tr ++ [EvKill (pid env) SIGTERM]).
Proof.
  intros H. unfold fluxCRDHandler.
  apply String.eqb_eq in H. rewrite H.
  unfold bind, syscall_Getpid, syscall_Kill, ret, panic.
  destruct (killErr env (count isKill tr)); reflexivity.
Qed.

(** C5. A handler called with a CRD of another group does nothing: it makes
    no call and returns.  Called with a CRD of its own group it makes
    exactly one call, kill(getpid(), SIGTERM). *)
Theorem handler_filters_on_group (env : Env) (gvk : GroupVersionKind)
        (tr : Trace) :
  (Group gvk <> clusterv1_Group ->
   capiCRDHandler env gvk tr = (Returned tt, tr)) /\
  (Group gvk = clusterv1_Group ->
   snd (capiCRDHandler env gvk tr) = tr ++ [EvKill (pid env) SIGTERM]) /\
  (Group gvk <> sourcev1_Group ->
   fluxCRDHandler env gvk tr = (Returned tt, tr)) /\
  (Group gvk = sourcev1_Group ->
   snd (fluxCRDHandler env gvk tr) = tr ++ [EvKill (pid env) SIGTERM]).
Proof.
  repeat split; intros H.
  - apply capiCRDHandler_other, H.
  - rewrite (capiCRDHandler_match env gvk tr H). reflexivity.
  - apply fluxCRDHandler_other, H.
  - rewrite (fluxCRDHandler_match env gvk tr H). reflexivity.
Qed.

Lemma handler_filters_on_group_witness :
  capiCRDHandler presentEnv fluxCreated [] = (Returned tt, []) /\
  snd (capiCRDHandler presentEnv capiCreated []) = [EvKill 1 SIGTERM] /\
  fluxCRDHandler presentEnv capiCreated [] = (Returned tt, []) /\
  snd (fluxCRDHandler presentEnv fluxCreated []) = [EvKill 1 SIGTERM].
Proof.
  split; [|split; [|split]].
  - apply (handler_filters_on_group presentEnv fluxCreated []). discriminate.
  - apply (handler_filters_on_group presentEnv capiCreated []). reflexivity.
  - apply (handler_filters_on_group presentEnv capiCreated []). discriminate.
  - apply (handler_filters_on_group presentEnv fluxCreated []). reflexivity.
Defined.

(** C9. When a handler fires (the CRD is of its group), a failed kill makes
    it panic with "kill -TERM failed", and a successful kill lets it return
    normally. *)
Theorem handler_kill_failure_panics (env : Env) (gvk : GroupVersionKind)
        (tr : Trace) :
  (Group gvk = clusterv1_Group ->
   (forall e, killErr env (count isKill tr) = Some e ->
              fst (capiCRDHandler env gvk tr) = Panicked "kill -TERM failed")
   /\ (killErr env (count isKill tr) = None ->
       fst (capiCRDHandler env gvk tr) = Returned tt)) /\
  (Group gvk = sourcev1_Group ->
   (forall e, killErr env (count isKill tr) = Some e ->
              fst (fluxCRDHandler env gvk tr) = Panicked "kill -TERM failed")
   /\ (killErr env (count isKill tr) = None ->
       fst (fluxCRDHandler env gvk tr) = Returned tt)).
Proof.
  split; intros H.
  - rewrite (capiCRDHandler_match env gvk tr H).
    split; [intros e He|intros He]; rewrite He; reflexivity.
  - rewrite (fluxCRDHandler_match env gvk tr H).
    split; [intros e He|intros He]; rewrite He; reflexivity.
Qed.

Lemma handler_kill_failure_panics_witness :
  fst (capiCRDHandler killFailsEnv capiCreated []) =
    Panicked "kill -TERM failed" /\
  fst (capiCRDHandler presentEnv capiCreated []) = Returned tt /\
  fst (fluxCRDHandler killFailsEnv fluxCreated []) =
    Panicked "kill -TERM failed" /\
  fst (fluxCRDHandler presentEnv fluxCreated []) = Returned tt.
Proof.
  split; [|split; [|split]].
  - apply (proj1 (handler_kill_failure_panics killFailsEnv capiCreated []))
      with (e := "operation not permitted"); reflexivity.
  - apply (proj1 (handler_kill_failure_panics presentEnv capiCreated []));
      reflexivity.
  - apply (proj2 (handler_kill_failure_panics killFailsEnv fluxCreated []))
      with (e := "operation not permitted"); reflexivity.
  - apply (proj2 (handler_kill_failure_panics presentEnv fluxCreated []));
      reflexivity.
Defined.

(** ** What a computation adds to the trace *)

Lemma count_snoc (p : Event -> bool) (tr : Trace) (e : Event) :
  count p (tr ++ [e]) = count p tr + (if p e then 1 else 0).
Proof.
  rewrite count_app, count_cons, count_nil. lia.
Qed.

Lemma appends_ret {A} P (a : A) : appends P (ret a).
Proof. intros tr. exists []. rewrite app_nil_r. split; reflexivity. Qed.

Lemma appends_panic {A} P msg : appends P (@panic A msg).
Proof. intros tr. exists []. rewrite app_nil_r. split; reflexivity. Qed.

Lemma appends_os_Exit {A} P c : appends P (@os_Exit A c).
Proof. intros tr. exists []. rewrite app_nil_r. split; reflexivity. Qed.

Lemma appends_running {A} P : appends P (@running A).
Proof. intros tr. exists []. rewrite app_nil_r. split; reflexivity. Qed.

Lemma appends_emit P e : P e = true -> appends P (emit e).
Proof.
  intros H tr. exists [e]. split; [reflexivity|]. simpl. rewrite H.
  reflexivity.
Qed.

Lemma appends_bind {A B} P (m : M A) (f : A -> M B) :
  appends P m -> (forall a, appends P (f a)) -> appends P (bind m f).
Proof.
  intros Hm Hf tr. unfold bind.
  destruct (Hm tr) as [a1 [E1 F1]].
  destruct (m tr) as [[a| | |] tr1]; simpl in E1; subst tr1;
    try (exists a1; split; [reflexivity|assumption]).
  destruct (Hf a (tr ++ a1)) as [a2 [E2 F2]].
  exists (a1 ++ a2). rewrite E2, app_assoc. split; [reflexivity|].
  rewrite forallb_app, F1, F2. reflexivity.
Qed.

Lemma appends_weaken {A} (P Q : Event -> bool) (m : M A) :
  (forall e, P e = true -> Q e = true) -> appends P m -> appends Q m.
Proof.
  intros HPQ Hm tr. destruct (Hm tr) as [added [E F]].
  exists added. split; [assumption|].
  rewrite forallb_forall in *. auto.
Qed.

Lemma appends_count {A} (P p : Event -> bool) (m : M A) (tr : Trace) :
  appends P m -> (forall e, P e = true -> p e = false) ->
  count p (snd (m tr)) = count p tr.
Proof.
  intros Hm Hp. destruct (Hm tr) as [added [E F]].
  rewrite E, count_app, (count_zero_forall p added); [lia|].
  rewrite forallb_forall in *. intros e He.
  rewrite (Hp e (F e He)). reflexivity.
Qed.

Lemma appends_client_Get env P ctx name :
  P (EvGet ctx name) = true -> appends P (client_Get env ctx name).
Proof.
  intros H tr. exists [EvGet ctx name]. split; [reflexivity|]. simpl.
  rewrite H. reflexivity.
Qed.

Lemma appends_syscall_Kill env P p sig :
  P (EvKill p sig) = true -> appends P (syscall_Kill env p sig).
Proof.
  intros H tr. exists [EvKill p sig]. split; [reflexivity|]. simpl.
  rewrite H. reflexivity.
Qed.

Lemma appends_WatchForCAPI env {A} P k (r : Ptr A) :
  P (EvWatchForCAPI k) = true -> appends P (WatchForCAPI env k r).
Proof.
  intros H. destruct r as [a|]; [|apply appends_panic].
  intros tr. exists [EvWatchForCAPI k]. split; [reflexivity|]. simpl.
  rewrite H. reflexivity.
Qed.

Lemma appends_WatchForFlux env P r :
  P EvWatchForFlux = true -> appends P (WatchForFlux env r).
Proof.
  intros H. destruct r as [a|]; [|apply appends_panic].
  intros tr. exists [EvWatchForFlux]. split; [reflexivity|]. simpl.
  rewrite H. reflexivity.
Qed.

(** solves [appends P m] for a loop-free [m], by the structure of [m] *)
Ltac appends_tac :=
  repeat first
    [ apply appends_ret | apply appends_panic | apply appends_os_Exit
    | apply appends_running
    | apply appends_emit; reflexivity
    | apply appends_client_Get; reflexivity
    | apply appends_syscall_Kill; reflexivity
    | apply appends_WatchForCAPI; reflexivity
    | apply appends_WatchForFlux; reflexivity
    | apply appends_bind; [|intros ?]
    | match goal with
      | |- appends _ (match ?x with _ => _ end) => destruct x
      | |- appends _ (if ?x then _ else _) => destruct x
      end ].

Lemma appends_capiCRDHandler env gvk :
  appends isKill (capiCRDHandler env gvk).
Proof.
  unfold capiCRDHandler, syscall_Getpid. appends_tac.
Qed.

Lemma appends_fluxCRDHandler env gvk :
  appends isKill (fluxCRDHandler env gvk).
Proof.
  unfold fluxCRDHandler, syscall_Getpid. appends_tac.
Qed.

Lemma appends_deliver env h evs :
  appends isKill (deliver (handlerOf env h) evs).
Proof.
  induction evs as [|gvk evs IH]; simpl.
  - apply appends_ret.
  - apply appends_bind; [|intros _; exact IH].
    destruct h; [apply appends_capiCRDHandler|apply appends_fluxCRDHandler].
Qed.

Lemma appends_go_Watch env ctx h :
  appends pipelineCall (go_WatchCustomResourceDefinition env ctx h).
Proof.
  unfold go_WatchCustomResourceDefinition.
  apply appends_bind; [apply appends_emit; reflexivity|intros _].
  apply appends_weaken with (P := isKill); [|apply appends_deliver].
  intros [] H; try discriminate; reflexivity.
Qed.

Lemma appends_capiAttach env P cp p cs :
  (forall e, probeOrAttachCall e = true -> P e = true) ->
  appends P (capiAttach env cp p cs).
Proof.
  intros HP. apply appends_weaken with (P := probeOrAttachCall); [exact HP|].
  unfold capiAttach, log_Info. appends_tac.
Qed.

Lemma appends_fluxAttach env P cs :
  (forall e, probeOrAttachCall e = true -> P e = true) ->
  appends P (fluxAttach env cs).
Proof.
  intros HP. apply appends_weaken with (P := probeOrAttachCall); [exact HP|].
  unfold fluxAttach, log_Info. appends_tac.
Qed.

Lemma probeOrAttach_pipeline e :
  probeOrAttachCall e = true -> pipelineCall e = true.
Proof. destruct e; simpl; congruence. Qed.

Lemma appends_capiWatchers_loop env ctx cp p cs fuel :
  forall retries,
    appends pipelineCall (capiWatchers_loop env ctx cp p cs fuel retries).
Proof.
  induction fuel as [|fuel IH]; intros retries; simpl.
  - apply appends_running.
  - apply appends_bind.
    { unfold isCAPIInstalled. appends_tac. }
    intros [present [err|]].
    + apply appends_bind; [|intros _; apply IH].
      unfold log_Info, time_Sleep. appends_tac.
    + apply appends_bind.
      * destruct (negb present).
        -- apply appends_bind; [apply appends_emit; reflexivity|intros _].
           apply appends_bind; [apply appends_go_Watch|intros _].
           apply appends_ret.
        -- apply appends_capiAttach, probeOrAttach_pipeline.
      * intros [|]; [apply IH|apply appends_ret].
Qed.

Lemma appends_fluxWatchers_loop env ctx cs fuel :
  forall retries,
    appends pipelineCall (fluxWatchers_loop env ctx cs fuel retries).
Proof.
  induction fuel as [|fuel IH]; intros retries; simpl.
  - apply appends_running.
  - apply appends_bind.
    { unfold isFluxInstalled. appends_tac. }
    intros [present [err|]].
    + apply appends_bind; [|intros _; apply IH].
      unfold log_Info, time_Sleep. appends_tac.
    + apply appends_bind.
      * destruct (negb present).
        -- apply appends_bind; [apply appends_emit; reflexivity|intros _].
           apply appends_bind; [apply appends_go_Watch|intros _].
           apply appends_ret.
        -- apply appends_fluxAttach, probeOrAttach_pipeline.
      * intros [|]; [apply IH|apply appends_ret].
Qed.

(** ** One pass through the loop body *)

Section LoopSteps.

Variable env : Env.
Variable ctx : Context.
Variable cp : Ptr ClusterProfileReconciler.
Variable p : Ptr ProfileReconciler.
Variable cs : Ptr ClusterSummaryReconciler.

Lemma capi_step_error fuel retries tr cause :
  getCRD env ctx (count isGet tr) capiCRDName = Some (OtherError cause) ->
  capiWatchers_loop env ctx cp p cs (S fuel) retries tr =
  capiWatchers_loop env ctx cp p cs fuel (wrap_int (retries + 1))
    (tr ++ failedProbe ctx capiCRDName "CAPI" cause retries).
Proof.
  intros H. simpl capiWatchers_loop. unfold bind at 1.
  rewrite isCAPIInstalled_run, H. unfold failedProbe.
  destruct (retries <? maxRetries)%Z;
    unfold bind, log_Info, time_Sleep, emit, ret; simpl;
    rewrite <- ?app_assoc; reflexivity.
Qed.

Lemma flux_step_error fuel retries tr cause :
  getCRD env ctx (count isGet tr) fluxCRDName = Some (OtherError cause) ->
  fluxWatchers_loop env ctx cs (S fuel) retries tr =
  fluxWatchers_loop env ctx cs fuel (wrap_int (retries + 1))
    (tr ++ failedProbe ctx fluxCRDName "Flux" cause retries).
Proof.
  intros H. simpl fluxWatchers_loop. unfold bind at 1.
  rewrite isFluxInstalled_run, H. unfold failedProbe.
  destruct (retries <? maxRetries)%Z;
    unfold bind, log_Info, time_Sleep, emit, ret; simpl;
    rewrite <- ?app_assoc; reflexivity.
Qed.

Lemma capi_step_absent fuel retries tr :
  getCRD env ctx (count isGet tr) capiCRDName = Some NotFound ->
  capiWatchers_loop env ctx cp p cs (S fuel) retries tr =
  deliver (capiCRDHandler env) (crdEvents env ctx)
    (tr ++ [EvGet ctx capiCRDName;
            EvLog LvlLogInfo
              "CAPI currently not present. Starting CRD watcher";
            EvGoWatchCRD ctx CapiCRDHandler]).
Proof.
  intros H. simpl capiWatchers_loop. unfold bind at 1.
  rewrite isCAPIInstalled_run, H. simpl negb. cbv iota.
  unfold go_WatchCustomResourceDefinition, bind, log_Info, emit, ret.
  simpl handlerOf. rewrite <- !app_assoc. simpl app.
  destruct (deliver _ _ _) as [[[]| | |] tr']; reflexivity.
Qed.

Lemma flux_step_absent fuel retries tr :
  getCRD env ctx (count isGet tr) fluxCRDName = Some NotFound ->
  fluxWatchers_loop env ctx cs (S fuel) retries tr =
  deliver (fluxCRDHandler env) (crdEvents env ctx)
    (tr ++ [EvGet ctx fluxCRDName;
            EvLog LvlLogInfo
              "Flux currently not present. Starting CRD watcher";
            EvGoWatchCRD ctx FluxCRDHandler]).
Proof.
  intros H. simpl fluxWatchers_loop. unfold bind at 1.
  rewrite isFluxInstalled_run, H. simpl negb. cbv iota.
  unfold go_WatchCustomResourceDefinition, bind, log_Info, emit, ret.
  simpl handlerOf. rewrite <- !app_assoc. simpl app.
  destruct (deliver _ _ _) as [[[]| | |] tr']; reflexivity.
Qed.

Lemma capi_step_present fuel retries tr :
  getCRD env ctx (count isGet tr) capiCRDName = None ->
  capiWatchers_loop env ctx cp p cs (S fuel) retries tr =
  (c <- capiAttach env cp p cs ;;
   match c with
   | Continue => capiWatchers_loop env ctx cp p cs fuel retries
   | Return => ret tt
   end) (tr ++ [EvGet ctx capiCRDName]).
Proof.
  intros H. simpl capiWatchers_loop. unfold bind at 1.
  rewrite isCAPIInstalled_run, H. reflexivity.
Qed.

Lemma flux_step_present fuel retries tr :
  getCRD env ctx (count isGet tr) fluxCRDName = None ->
  fluxWatchers_loop env ctx cs (S fuel) retries tr =
  (c <- fluxAttach env cs ;;
   match c with
   | Continue => fluxWatchers_loop env ctx cs fuel retries
   | Return => ret tt
   end) (tr ++ [EvGet ctx fluxCRDName]).
Proof.
  intros H. simpl fluxWatchers_loop. unfold bind at 1.
  rewrite isFluxInstalled_run, H. reflexivity.
Qed.

End LoopSteps.

(** ** Probes that always fail *)

Lemma failedProbe_counts ctx name what cause retries :
  count isGet (failedProbe ctx name what cause retries) = 1 /\
  count isGoWatchCRD (failedProbe ctx name what cause retries) = 0 /\
  count isAttach (failedProbe ctx name what cause retries) = 0 /\
  count isSleep (failedProbe ctx name what cause retries) =
    (if (retries <? maxRetries)%Z then 1 else 0).
Proof.
  unfold failedProbe. destruct (retries <? maxRetries)%Z;
    repeat split; reflexivity.
Qed.

Lemma capi_always_error env ctx cp p cs :
  (forall n, exists cause,
      getCRD env ctx n capiCRDName = Some (OtherError cause)) ->
  forall fuel retries tr,
    let r := capiWatchers_loop env ctx cp p cs fuel retries tr in
    fst r = Running /\
    count isGet (snd r) = count isGet tr + fuel /\
    count isGoWatchCRD (snd r) = count isGoWatchCRD tr /\
    count isAttach (snd r) = count isAttach tr.
Proof.
  intros Herr. induction fuel as [|fuel IH]; intros retries tr.
  - simpl. repeat split; lia.
  - cbv zeta. destruct (Herr (count isGet tr)) as [cause Hc].
    rewrite (capi_step_error env ctx cp p cs fuel retries tr cause Hc).
    destruct (IH (wrap_int (retries + 1))
                 (tr ++ failedProbe ctx capiCRDName "CAPI" cause retries))
      as [H1 [H2 [H3 H4]]].
    destruct (failedProbe_counts ctx capiCRDName "CAPI" cause retries)
      as [F1 [F2 [F3 _]]].
    rewrite H1, H2, H3, H4, !count_app, F1, F2, F3.
    repeat split; lia.
Qed.

Lemma flux_always_error env ctx cs :
  (forall n, exists cause,
      getCRD env ctx n fluxCRDName = Some (OtherError cause)) ->
  forall fuel retries tr,
    let r := fluxWatchers_loop env ctx cs fuel retries tr in
    fst r = Running /\
    count isGet (snd r) = count isGet tr + fuel /\
    count isGoWatchCRD (snd r) = count isGoWatchCRD tr /\
    count isAttach (snd r) = count isAttach tr.
Proof.
  intros Herr. induction fuel as [|fuel IH]; intros retries tr.
  - simpl. repeat split; lia.
  - cbv zeta. destruct (Herr (count isGet tr)) as [cause Hc].
    rewrite (flux_step_error env ctx cs fuel retries tr cause Hc).
    destruct (IH (wrap_int (retries + 1))
                 (tr ++ failedProbe ctx fluxCRDName "Flux" cause retries))
      as [H1 [H2 [H3 H4]]].
    destruct (failedProbe_counts ctx fluxCRDName "Flux" cause retries)
      as [F1 [F2 [F3 _]]].
    rewrite H1, H2, H3, H4, !count_app, F1, F2, F3.
    repeat split; lia.
Qed.

(** C1 (as the code behaves). When every probe fails with an error other
    than not-found, neither pipeline ever returns: whatever the number of
    passes through the loop, the pipeline is still running, has made one
    probe per pass (so more than maxRetries of them), has not started the
    CRD watcher and has not attached anything. *)
Theorem transient_forever_never_resolves (env : Env) (ctx : Context)
        (cp : Ptr ClusterProfileReconciler) (p : Ptr ProfileReconciler)
        (cs : Ptr ClusterSummaryReconciler) :
  (forall n name, exists cause,
      getCRD env ctx n name = Some (OtherError cause)) ->
  forall fuel,
    (fst (capiWatchers env ctx cp p cs fuel []) = Running /\
     count isGet (snd (capiWatchers env ctx cp p cs fuel [])) = fuel /\
     noWatchNoAttach (snd (capiWatchers env ctx cp p cs fuel []))) /\
    (fst (fluxWatchers env ctx cs fuel []) = Running /\
     count isGet (snd (fluxWatchers env ctx cs fuel [])) = fuel /\
     noWatchNoAttach (snd (fluxWatchers env ctx cs fuel []))).
Proof.
  intros Herr fuel. unfold capiWatchers, fluxWatchers, noWatchNoAttach.
  destruct (capi_always_error env ctx cp p cs
              (fun n => Herr n capiCRDName) fuel 0%Z [])
    as [C1 [C2 [C3 C4]]].
  destruct (flux_always_error env ctx cs
              (fun n => Herr n fluxCRDName) fuel 0%Z [])
    as [F1 [F2 [F3 F4]]].
  rewrite count_nil in *. simpl in C2, F2.
  repeat split; assumption.
Qed.

Lemma transient_forever_never_resolves_witness :
  (forall n name, exists cause,
      getCRD transientEnv live n name = Some (OtherError cause)) /\
  fst (capiWatchers transientEnv live (Some TheClusterProfileReconciler)
         (Some TheProfileReconciler) (Some TheClusterSummaryReconciler)
         1000 []) = Running /\
  fst (fluxWatchers transientEnv live (Some TheClusterSummaryReconciler)
         1000 []) = Running.
Proof.
  assert (H : forall n name, exists cause,
             getCRD transientEnv live n name = Some (OtherError cause)).
  { intros n name. exists "forbidden". reflexivity. }
  split; [exact H|].
  split.
  - apply (transient_forever_never_resolves transientEnv live
             (Some TheClusterProfileReconciler) (Some TheProfileReconciler)
             (Some TheClusterSummaryReconciler) H 1000).
  - apply (transient_forever_never_resolves transientEnv live
             (Some TheClusterProfileReconciler) (Some TheProfileReconciler)
             (Some TheClusterSummaryReconciler) H 1000).
Defined.

(** With every probe failing, 25 passes make 25 probes but only 20 sleeps:
    after maxRetries failures the loop goes on without pausing. *)
Example transient_25_passes :
  let r := fluxWatchers transientEnv live (Some TheClusterSummaryReconciler)
             25 [] in
  fst r = Running /\ count isGet (snd r) = 25 /\ count isSleep (snd r) = 20
  /\ count isGoWatchCRD (snd r) = 0.
Proof. vm_compute. repeat split; reflexivity. Qed.

(** ** The attach pass *)

Ltac run_attach :=
  unfold capiAttach, fluxAttach, bind, log_Info, emit, ret, WatchForCAPI,
    WatchForFlux, nextCAPI in *;
  simpl;
  rewrite ?count_snoc; simpl; rewrite ?Nat.add_0_r.

Lemma capiAttach_ok env cp p cs tr :
  (cp <> None -> nextCAPI env ClusterProfile tr = None) ->
  (p <> None -> nextCAPI env Profile tr = None) ->
  cs <> None -> nextCAPI env ClusterSummary tr = None ->
  capiAttach env cp p cs tr = (Returned Return, tr ++ capiAttached cp p).
Proof.
  intros Hcp Hp Hcs Hs.
  destruct cs as [cs|]; [clear Hcs|congruence].
  destruct cp as [cp|], p as [p|]; run_attach;
    rewrite ?Hcp, ?Hp, ?Hs by congruence; run_attach;
    rewrite ?Hcp, ?Hp, ?Hs by congruence; run_attach;
    rewrite ?Hcp, ?Hp, ?Hs by congruence;
    rewrite <- ?app_assoc; reflexivity.
Qed.

Lemma capiAttach_fails env cp p cs tr stage e :
  capiFailsAt env cp p cs tr stage e ->
  capiAttach env cp p cs tr =
  (Returned Continue, tr ++ capiFailedAttach cp p stage e).
Proof.
  destruct stage; simpl.
  - intros [Hcp He]. destruct cp as [cp|]; [|congruence].
    run_attach. rewrite He. run_attach.
    rewrite <- ?app_assoc. reflexivity.
  - intros [Hcp [Hp He]]. destruct p as [p|]; [|congruence].
    destruct cp as [cp|]; run_attach;
      rewrite ?Hcp, ?He by congruence; run_attach;
      rewrite ?Hcp, ?He by congruence; run_attach;
      rewrite <- ?app_assoc; reflexivity.
  - intros [Hcp [Hp [Hcs He]]]. destruct cs as [cs|]; [|congruence].
    destruct cp as [cp|], p as [p|]; run_attach;
      rewrite ?Hcp, ?Hp, ?He by congruence; run_attach;
      rewrite ?Hcp, ?Hp, ?He by congruence; run_attach;
      rewrite ?Hcp, ?Hp, ?He by congruence;
      rewrite <- ?app_assoc; reflexivity.
Qed.

Lemma fluxAttach_ok env cs tr :
  cs <> None -> watchForFlux env (count isWatchForFlux tr) = None ->
  fluxAttach env cs tr =
  (Returned Return, tr ++ [EvLog LvlLogInfo "Flux present."; EvWatchForFlux]).
Proof.
  intros Hcs He. destruct cs as [cs|]; [|congruence].
  run_attach. rewrite He. rewrite <- ?app_assoc. reflexivity.
Qed.

Lemma fluxAttach_fails env cs tr e :
  cs <> None -> watchForFlux env (count isWatchForFlux tr) = Some e ->
  fluxAttach env cs tr =
  (Returned Continue,
   tr ++ [EvLog LvlLogInfo "Flux present."; EvWatchForFlux]).
Proof.
  intros Hcs He. destruct cs as [cs|]; [|congruence].
  run_attach. rewrite He. rewrite <- ?app_assoc. reflexivity.
Qed.

(** ** The watch path *)

Lemma handler_outcome env h gvk tr :
  fst (handlerOf env h gvk tr) = Returned tt \/
  fst (handlerOf env h gvk tr) = Panicked "kill -TERM failed".
Proof.
  destruct h; simpl; unfold capiCRDHandler, fluxCRDHandler;
    match goal with |- context [String.eqb ?a ?b] => destruct (String.eqb a b) end;
    unfold bind, syscall_Getpid, syscall_Kill, ret, panic;
    try destruct (killErr env _); simpl; auto.
Qed.

Lemma deliver_outcome env h evs :
  forall tr,
    fst (deliver (handlerOf env h) evs tr) = Returned tt \/
    fst (deliver (handlerOf env h) evs tr) = Panicked "kill -TERM failed".
Proof.
  induction evs as [|gvk evs IH]; intros tr; simpl.
  - left. reflexivity.
  - unfold bind. destruct (handler_outcome env h gvk tr) as [H|H];
      destruct (handlerOf env h gvk tr) as [[[]| | |] tr']; simpl in H;
      try discriminate; auto.
Qed.

(** C4. When the first probe answers not-found, the pipeline starts the CRD
    watcher exactly once, with the handler of its own capability, makes no
    attach call and no further probe, and ends (by returning, or by the
    handler's panic when a later kill fails). *)
Theorem absent_first_starts_watcher_once (env : Env) (ctx : Context)
        (cp : Ptr ClusterProfileReconciler) (p : Ptr ProfileReconciler)
        (cs : Ptr ClusterSummaryReconciler) (fuel : nat) :
  (getCRD env ctx 0 capiCRDName = Some NotFound ->
   let r := capiWatchers env ctx cp p cs (S fuel) [] in
   count isGoWatchCRD (snd r) = 1 /\
   In (EvGoWatchCRD ctx CapiCRDHandler) (snd r) /\
   count isAttach (snd r) = 0 /\
   count isGet (snd r) = 1 /\
   (fst r = Returned tt \/ fst r = Panicked "kill -TERM failed")) /\
  (getCRD env ctx 0 fluxCRDName = Some NotFound ->
   let r := fluxWatchers env ctx cs (S fuel) [] in
   count isGoWatchCRD (snd r) = 1 /\
   In (EvGoWatchCRD ctx FluxCRDHandler) (snd r) /\
   count isAttach (snd r) = 0 /\
   count isGet (snd r) = 1 /\
   (fst r = Returned tt \/ fst r = Panicked "kill -TERM failed")).
Proof.
  split; intros H; cbv zeta.
  - unfold capiWatchers.
    rewrite (capi_step_absent env ctx cp p cs fuel 0%Z [] H).
    destruct (appends_deliver env CapiCRDHandler (crdEvents env ctx)
                ([] ++ [EvGet ctx capiCRDName;
                        EvLog LvlLogInfo
                          "CAPI currently not present. Starting CRD watcher";
                        EvGoWatchCRD ctx CapiCRDHandler]))
      as [added [E F]].
    simpl handlerOf in E. rewrite E.
    rewrite !count_app,
      (count_zero_forall isGoWatchCRD added),
      (count_zero_forall isAttach added),
      (count_zero_forall isGet added).
    + repeat split; try reflexivity.
      * apply in_or_app. left. simpl. auto.
      * apply (deliver_outcome env CapiCRDHandler).
    + rewrite forallb_forall in *. intros e He.
      specialize (F e He). destruct e; simpl in *; congruence.
    + rewrite forallb_forall in *. intros e He.
      specialize (F e He). destruct e; simpl in *; congruence.
    + rewrite forallb_forall in *. intros e He.
      specialize (F e He). destruct e; simpl in *; congruence.
  - unfold fluxWatchers.
    rewrite (flux_step_absent env ctx cs fuel 0%Z [] H).
    destruct (appends_deliver env FluxCRDHandler (crdEvents env ctx)
                ([] ++ [EvGet ctx fluxCRDName;
                        EvLog LvlLogInfo
                          "Flux currently not present. Starting CRD watcher";
                        EvGoWatchCRD ctx FluxCRDHandler]))
      as [added [E F]].
    simpl handlerOf in E. rewrite E.
    rewrite !count_app,
      (count_zero_forall isGoWatchCRD added),
      (count_zero_forall isAttach added),
      (count_zero_forall isGet added).
    + repeat split; try reflexivity.
      * apply in_or_app. left. simpl. auto.
      * apply (deliver_outcome env FluxCRDHandler).
    + rewrite forallb_forall in *. intros e He.
      specialize (F e He). destruct e; simpl in *; congruence.
    + rewrite forallb_forall in *. intros e He.
      specialize (F e He). destruct e; simpl in *; congruence.
    + rewrite forallb_forall in *. intros e He.
      specialize (F e He). destruct e; simpl in *; congruence.
Qed.

Lemma absent_first_starts_watcher_once_witness :
  getCRD absentEnv live 0 capiCRDName = Some NotFound /\
  getCRD absentEnv live 0 fluxCRDName = Some NotFound /\
  count isGoWatchCRD
    (snd (capiWatchers absentEnv live (Some TheClusterProfileReconciler)
            (Some TheProfileReconciler) (Some TheClusterSummaryReconciler)
            1 [])) = 1 /\
  count isGoWatchCRD
    (snd (fluxWatchers absentEnv live (Some TheClusterSummaryReconciler)
            1 [])) = 1.
Proof.
  split; [reflexivity|]. split; [reflexivity|]. split.
  - apply (proj1 (absent_first_starts_watcher_once absentEnv live
                    (Some TheClusterProfileReconciler)
                    (Some TheProfileReconciler)
                    (Some TheClusterSummaryReconciler) 0)).
    reflexivity.
  - apply (proj2 (absent_first_starts_watcher_once absentEnv live
                    (Some TheClusterProfileReconciler)
                    (Some TheProfileReconciler)
                    (Some TheClusterSummaryReconciler) 0)).
    reflexivity.
Defined.

(** ** The attach path *)

(** C3 (as stated) fails. With Flux present at the first probe and the
    first registration failing, WatchForFlux is called twice; and when the
    CRD is gone at the second probe the CRD watcher is started and its
    handler sends the termination signal. *)
Lemma present_first_not_attach_once :
  getCRD attachFailsOnceEnv live 0 fluxCRDName = None /\
  count isAttach
    (snd (fluxWatchers attachFailsOnceEnv live
            (Some TheClusterSummaryReconciler) 5 [])) = 2 /\
  getCRD flickerEnv live 0 fluxCRDName = None /\
  count isGoWatchCRD
    (snd (fluxWatchers flickerEnv live
            (Some TheClusterSummaryReconciler) 5 [])) = 1 /\
  count isKill
    (snd (fluxWatchers flickerEnv live
            (Some TheClusterSummaryReconciler) 5 [])) = 1.
Proof. vm_compute. repeat split; reflexivity. Qed.

(** C3 (amended). When the first probe finds the CRD and every registration
    of the pass succeeds, the pipeline returns after that single pass: each
    non-nil reconciler's watch is registered exactly once (three calls at
    most for CAPI, one for Flux), the CRD watcher is never started and no
    termination signal is sent. *)
Theorem present_first_attach_ok_once (env : Env) (ctx : Context)
        (cp : Ptr ClusterProfileReconciler) (p : Ptr ProfileReconciler)
        (cs : Ptr ClusterSummaryReconciler) (fuel : nat) :
  cs <> None ->
  (getCRD env ctx 0 capiCRDName = None ->
   (cp <> None -> watchForCAPI env ClusterProfile 0 = None) ->
   (p <> None -> watchForCAPI env Profile 0 = None) ->
   watchForCAPI env ClusterSummary 0 = None ->
   let r := capiWatchers env ctx cp p cs (S fuel) [] in
   fst r = Returned tt /\
   snd r = EvGet ctx capiCRDName :: capiAttached cp p /\
   count (isWatchForCAPI ClusterProfile) (snd r) = ptrCount cp /\
   count (isWatchForCAPI Profile) (snd r) = ptrCount p /\
   count (isWatchForCAPI ClusterSummary) (snd r) = 1 /\
   count isGoWatchCRD (snd r) = 0 /\ count isKill (snd r) = 0) /\
  (getCRD env ctx 0 fluxCRDName = None ->
   watchForFlux env 0 = None ->
   let r := fluxWatchers env ctx cs (S fuel) [] in
   fst r = Returned tt /\
   snd r = [EvGet ctx fluxCRDName; EvLog LvlLogInfo "Flux present.";
            EvWatchForFlux] /\
   count isAttach (snd r) = 1 /\
   count isGoWatchCRD (snd r) = 0 /\ count isKill (snd r) = 0).
Proof.
  intros Hcs. split.
  - intros Hget Hcp Hp Hs. cbv zeta. unfold capiWatchers.
    rewrite (capi_step_present env ctx cp p cs fuel 0%Z [] Hget).
    unfold bind. rewrite capiAttach_ok; try assumption.
    simpl. destruct cp, p; repeat split; reflexivity.
  - intros Hget Hf. cbv zeta. unfold fluxWatchers.
    rewrite (flux_step_present env ctx cs fuel 0%Z [] Hget).
    unfold bind. rewrite fluxAttach_ok; try assumption.
    simpl. repeat split; reflexivity.
Qed.

Lemma present_first_attach_ok_once_witness :
  Some TheClusterSummaryReconciler <> None /\
  snd (capiWatchers presentEnv live (Some TheClusterProfileReconciler)
         (Some TheProfileReconciler) (Some TheClusterSummaryReconciler)
         1 []) =
  EvGet live capiCRDName ::
  capiAttached (Some TheClusterProfileReconciler)
    (Some TheProfileReconciler) /\
  count isAttach
    (snd (fluxWatchers presentEnv live (Some TheClusterSummaryReconciler)
            1 [])) = 1.
Proof.
  assert (H : Some TheClusterSummaryReconciler <> None) by discriminate.
  split; [exact H|]. split.
  - apply (proj1 (present_first_attach_ok_once presentEnv live
                    (Some TheClusterProfileReconciler)
                    (Some TheProfileReconciler)
                    (Some TheClusterSummaryReconciler) 0 H)); reflexivity.
  - apply (proj2 (present_first_attach_ok_once presentEnv live
                    (Some TheClusterProfileReconciler)
                    (Some TheProfileReconciler)
                    (Some TheClusterSummaryReconciler) 0 H)); reflexivity.
Defined.

(** ** A registration that fails *)

Lemma nextCAPI_after_get env k tr ctx name :
  nextCAPI env k (tr ++ [EvGet ctx name]) = nextCAPI env k tr.
Proof.
  unfold nextCAPI. rewrite count_snoc.
  destruct k; simpl; rewrite Nat.add_0_r; reflexivity.
Qed.

Lemma capiFailsAt_after_get env cp p cs tr stage e ctx name :
  capiFailsAt env cp p cs tr stage e ->
  capiFailsAt env cp p cs (tr ++ [EvGet ctx name]) stage e.
Proof.
  unfold capiFailsAt. rewrite !nextCAPI_after_get. exact (fun H => H).
Qed.

Lemma capi_pass_probes_first env ctx cp p cs fuel retries tr :
  exists rest,
    snd (capiWatchers_loop env ctx cp p cs (S fuel) retries tr) =
    tr ++ EvGet ctx capiCRDName :: rest.
Proof.
  destruct (getCRD env ctx (count isGet tr) capiCRDName) as [[|cause]|] eqn:H.
  - rewrite (capi_step_absent env ctx cp p cs fuel retries tr H).
    destruct (appends_deliver env CapiCRDHandler (crdEvents env ctx)
                (tr ++ [EvGet ctx capiCRDName;
                        EvLog LvlLogInfo
                          "CAPI currently not present. Starting CRD watcher";
                        EvGoWatchCRD ctx CapiCRDHandler]))
      as [added [E _]].
    simpl handlerOf in E. rewrite E, <- app_assoc. simpl. eauto.
  - rewrite (capi_step_error env ctx cp p cs fuel retries tr cause H).
    destruct (appends_capiWatchers_loop env ctx cp p cs fuel
                (wrap_int (retries + 1))
                (tr ++ failedProbe ctx capiCRDName "CAPI" cause retries))
      as [added [E _]].
    rewrite E, <- app_assoc. unfold failedProbe. simpl. eauto.
  - rewrite (capi_step_present env ctx cp p cs fuel retries tr H).
    assert (A : appends pipelineCall
                  (c <- capiAttach env cp p cs ;;
                   match c with
                   | Continue => capiWatchers_loop env ctx cp p cs fuel retries
                   | Return => ret tt
                   end)).
    { apply appends_bind.
      - apply appends_capiAttach, probeOrAttach_pipeline.
      - intros [|]; [apply appends_capiWatchers_loop|apply appends_ret]. }
    destruct (A (tr ++ [EvGet ctx capiCRDName])) as [added [E _]].
    rewrite E, <- app_assoc. simpl. eauto.
Qed.

Lemma flux_pass_probes_first env ctx cs fuel retries tr :
  exists rest,
    snd (fluxWatchers_loop env ctx cs (S fuel) retries tr) =
    tr ++ EvGet ctx fluxCRDName :: rest.
Proof.
  destruct (getCRD env ctx (count isGet tr) fluxCRDName) as [[|cause]|] eqn:H.
  - rewrite (flux_step_absent env ctx cs fuel retries tr H).
    destruct (appends_deliver env FluxCRDHandler (crdEvents env ctx)
                (tr ++ [EvGet ctx fluxCRDName;
                        EvLog LvlLogInfo
                          "Flux currently not present. Starting CRD watcher";
                        EvGoWatchCRD ctx FluxCRDHandler]))
      as [added [E _]].
    simpl handlerOf in E. rewrite E, <- app_assoc. simpl. eauto.
  - rewrite (flux_step_error env ctx cs fuel retries tr cause H).
    destruct (appends_fluxWatchers_loop env ctx cs fuel
                (wrap_int (retries + 1))
                (tr ++ failedProbe ctx fluxCRDName "Flux" cause retries))
      as [added [E _]].
    rewrite E, <- app_assoc. unfold failedProbe. simpl. eauto.
  - rewrite (flux_step_present env ctx cs fuel retries tr H).
    assert (A : appends pipelineCall
                  (c <- fluxAttach env cs ;;
                   match c with
                   | Continue => fluxWatchers_loop env ctx cs fuel retries
                   | Return => ret tt
                   end)).
    { apply appends_bind.
      - apply appends_fluxAttach, probeOrAttach_pipeline.
      - intros [|]; [apply appends_fluxWatchers_loop|apply appends_ret]. }
    destruct (A (tr ++ [EvGet ctx fluxCRDName])) as [added [E _]].
    rewrite E, <- app_assoc. simpl. eauto.
Qed.

(** C6 (as stated) fails. With Flux present and the first WatchForFlux
    failing, the pipeline does not stop there: it probes a second time and
    registers a second time. *)
Lemma attach_failure_is_retried :
  watchForFlux attachFailsOnceEnv 0 = Some "no kind is registered" /\
  fst (fluxWatchers attachFailsOnceEnv live
         (Some TheClusterSummaryReconciler) 5 []) = Returned tt /\
  count isGet
    (snd (fluxWatchers attachFailsOnceEnv live
            (Some TheClusterSummaryReconciler) 5 [])) = 2 /\
  count isAttach
    (snd (fluxWatchers attachFailsOnceEnv live
            (Some TheClusterSummaryReconciler) 5 [])) = 2 /\
  withoutLogs
    (snd (fluxWatchers attachFailsOnceEnv live
            (Some TheClusterSummaryReconciler) 5 [])) =
  [EvGet live fluxCRDName; EvWatchForFlux;
   EvGet live fluxCRDName; EvWatchForFlux].
Proof. repeat split; reflexivity. Qed.

Lemma withoutLogs_app (a b : Trace) :
  withoutLogs (a ++ b) = withoutLogs a ++ withoutLogs b.
Proof. apply filter_app. Qed.

Lemma withoutLogs_capiFailedAttach cp p stage e :
  withoutLogs (capiFailedAttach cp p stage e) = registrationsUpTo cp p stage.
Proof. destruct stage, cp, p; reflexivity. Qed.

(** C6 (amended). A registration that fails while the capability is present
    neither stops the process nor ends the pipeline: the pass ends at the
    failing registration and the loop starts over with the same retry
    counter and without sleeping; the next pass begins with a new probe, and
    registers again, from the first controller, if the CRD is still there.
    The statement is about the calls other than log lines. *)
Theorem attach_failure_restarts_loop (env : Env) (ctx : Context)
        (cp : Ptr ClusterProfileReconciler) (p : Ptr ProfileReconciler)
        (cs : Ptr ClusterSummaryReconciler) (fuel : nat) (retries : Z)
        (tr : Trace) :
  (forall stage e,
      getCRD env ctx (count isGet tr) capiCRDName = None ->
      capiFailsAt env cp p cs tr stage e ->
      exists tr',
        capiWatchers_loop env ctx cp p cs (S (S fuel)) retries tr =
        capiWatchers_loop env ctx cp p cs (S fuel) retries tr' /\
        withoutLogs tr' =
        withoutLogs tr ++
        EvGet ctx capiCRDName :: registrationsUpTo cp p stage /\
        exists rest,
          snd (capiWatchers_loop env ctx cp p cs (S (S fuel)) retries tr) =
          tr' ++ EvGet ctx capiCRDName :: rest) /\
  (forall e,
      getCRD env ctx (count isGet tr) fluxCRDName = None ->
      cs <> None ->
      watchForFlux env (count isWatchForFlux tr) = Some e ->
      exists tr',
        fluxWatchers_loop env ctx cs (S (S fuel)) retries tr =
        fluxWatchers_loop env ctx cs (S fuel) retries tr' /\
        withoutLogs tr' =
        withoutLogs tr ++ [EvGet ctx fluxCRDName; EvWatchForFlux] /\
        exists rest,
          snd (fluxWatchers_loop env ctx cs (S (S fuel)) retries tr) =
          tr' ++ EvGet ctx fluxCRDName :: rest).
Proof.
  split.
  - intros stage e Hget Hfail.
    exists (tr ++ EvGet ctx capiCRDName :: capiFailedAttach cp p stage e).
    assert (E : capiWatchers_loop env ctx cp p cs (S (S fuel)) retries tr =
                capiWatchers_loop env ctx cp p cs (S fuel) retries
                  (tr ++ EvGet ctx capiCRDName ::
                      capiFailedAttach cp p stage e)).
    { rewrite (capi_step_present env ctx cp p cs (S fuel) retries tr Hget).
      unfold bind at 1.
      rewrite (capiAttach_fails env cp p cs _ stage e
                 (capiFailsAt_after_get env cp p cs tr stage e ctx
                    capiCRDName Hfail)).
      rewrite <- app_assoc. reflexivity. }
    split; [exact E|]. split.
    + rewrite withoutLogs_app.
      change (EvGet ctx capiCRDName :: capiFailedAttach cp p stage e)
        with ([EvGet ctx capiCRDName] ++ capiFailedAttach cp p stage e).
      rewrite withoutLogs_app, withoutLogs_capiFailedAttach. reflexivity.
    + rewrite E. apply capi_pass_probes_first.
  - intros e Hget Hcs Hfail.
    exists (tr ++ [EvGet ctx fluxCRDName;
                   EvLog LvlLogInfo "Flux present."; EvWatchForFlux]).
    assert (E : fluxWatchers_loop env ctx cs (S (S fuel)) retries tr =
                fluxWatchers_loop env ctx cs (S fuel) retries
                  (tr ++ [EvGet ctx fluxCRDName;
                          EvLog LvlLogInfo "Flux present."; EvWatchForFlux])).
    { rewrite (flux_step_present env ctx cs (S fuel) retries tr Hget).
      unfold bind at 1.
      rewrite (fluxAttach_fails env cs _ e Hcs).
      - rewrite <- app_assoc. reflexivity.
      - rewrite count_snoc. simpl. rewrite Nat.add_0_r. exact Hfail. }
    split; [exact E|]. split.
    + rewrite withoutLogs_app. reflexivity.
    + rewrite E. apply flux_pass_probes_first.
Qed.

Lemma attach_failure_restarts_loop_witness :
  getCRD attachFailsOnceEnv live 0 capiCRDName = None /\
  capiFailsAt attachFailsOnceEnv (Some TheClusterProfileReconciler)
    (Some TheProfileReconciler) (Some TheClusterSummaryReconciler) []
    ClusterProfile "no kind is registered" /\
  watchForFlux attachFailsOnceEnv 0 = Some "no kind is registered" /\
  (exists tr',
      capiWatchers_loop attachFailsOnceEnv live
        (Some TheClusterProfileReconciler) (Some TheProfileReconciler)
        (Some TheClusterSummaryReconciler) 2 0 [] =
      capiWatchers_loop attachFailsOnceEnv live
        (Some TheClusterProfileReconciler) (Some TheProfileReconciler)
        (Some TheClusterSummaryReconciler) 1 0 tr' /\
      withoutLogs tr' =
      [EvGet live capiCRDName; EvWatchForCAPI ClusterProfile]) /\
  (exists tr',
      fluxWatchers_loop attachFailsOnceEnv live
        (Some TheClusterSummaryReconciler) 2 0 [] =
      fluxWatchers_loop attachFailsOnceEnv live
        (Some TheClusterSummaryReconciler) 1 0 tr' /\
      withoutLogs tr' = [EvGet live fluxCRDName; EvWatchForFlux]).
Proof.
  assert (F : capiFailsAt attachFailsOnceEnv
                (Some TheClusterProfileReconciler)
                (Some TheProfileReconciler)
                (Some TheClusterSummaryReconciler) []
                ClusterProfile "no kind is registered").
  { split; [discriminate|reflexivity]. }
  split; [reflexivity|]. split; [exact F|]. split; [reflexivity|]. split.
  - destruct (proj1 (attach_failure_restarts_loop attachFailsOnceEnv live
                       (Some TheClusterProfileReconciler)
                       (Some TheProfileReconciler)
                       (Some TheClusterSummaryReconciler) 0 0 [])
                ClusterProfile "no kind is registered" eq_refl F)
      as [tr' [E [W _]]].
    exists tr'. split; [exact E|exact W].
  - destruct (proj2 (attach_failure_restarts_loop attachFailsOnceEnv live
                       (Some TheClusterProfileReconciler)
                       (Some TheProfileReconciler)
                       (Some TheClusterSummaryReconciler) 0 0 [])
                "no kind is registered" eq_refl)
      as [tr' [E [W _]]]; [discriminate|reflexivity|].
    exists tr'. split; [exact E|exact W].
Defined.

(** ** Sharded deployments: nil reconcilers *)

Lemma mainReconcilers_sharded env shardKey tr :
  shardKey <> "" ->
  mainReconcilers env shardKey tr =
  match setupErr env ClusterSummary with
  | None =>
      (Returned {| clusterProfileReconciler := None;
                   profileReconciler := None;
                   clusterSummaryReconciler :=
                     Some TheClusterSummaryReconciler |},
       tr ++ [EvSetup ClusterSummary])
  | Some _ =>
      (Exited 1,
       tr ++ [EvSetup ClusterSummary;
              EvLogError "unable to create controller"])
  end.
Proof.
  intros H. apply String.eqb_neq in H.
  unfold mainReconcilers. rewrite H.
  unfold bind, setupOrExit, bind, emit, ret, log_Error, emit, os_Exit.
  simpl. destruct (setupErr env ClusterSummary); simpl;
    rewrite <- ?app_assoc; reflexivity.
Qed.

Lemma capiAttach_sharded env cs tr :
  cs <> None ->
  capiAttach env None None cs tr =
  (Returned match nextCAPI env ClusterSummary tr with
            | Some _ => Continue
            | None => Return
            end,
   tr ++ [EvLog LvlLogInfo "CAPI present."; EvWatchForCAPI ClusterSummary]).
Proof.
  intros H. destruct cs as [cs|]; [|congruence].
  run_attach. destruct (watchForCAPI env ClusterSummary _);
    rewrite <- ?app_assoc; reflexivity.
Qed.

Lemma capiWatchers_sharded env ctx cs :
  cs <> None ->
  forall fuel retries tr,
    noNilDereference (capiWatchers_loop env ctx None None cs fuel retries tr)
      tr.
Proof.
  intros Hcs. induction fuel as [|fuel IH]; intros retries tr.
  - simpl. repeat split. discriminate.
  - destruct (getCRD env ctx (count isGet tr) capiCRDName) as [[|cause]|]
      eqn:H.
    + rewrite (capi_step_absent env ctx None None cs fuel retries tr H).
      unfold noNilDereference.
      destruct (deliver_outcome env CapiCRDHandler (crdEvents env ctx)
                  (tr ++ [EvGet ctx capiCRDName;
                          EvLog LvlLogInfo
                            "CAPI currently not present. Starting CRD watcher";
                          EvGoWatchCRD ctx CapiCRDHandler])) as [O|O];
        simpl handlerOf in O; rewrite O;
        (split; [discriminate|]);
        rewrite !(appends_count isKill _
                    (deliver (handlerOf env CapiCRDHandler)
                       (crdEvents env ctx)) _
                    (appends_deliver env CapiCRDHandler (crdEvents env ctx)))
          by (intros [] E; try discriminate; reflexivity);
        rewrite !count_app; split; unfold count; simpl; lia.
    + rewrite (capi_step_error env ctx None None cs fuel retries tr cause H).
      destruct (IH (wrap_int (retries + 1))
                   (tr ++ failedProbe ctx capiCRDName "CAPI" cause retries))
        as [I1 [I2 I3]].
      unfold noNilDereference. rewrite I2, I3, !count_app.
      split; [exact I1|].
      unfold failedProbe. destruct (retries <? maxRetries)%Z;
        split; unfold count; simpl; lia.
    + rewrite (capi_step_present env ctx None None cs fuel retries tr H).
      unfold bind. rewrite (capiAttach_sharded env cs _ Hcs).
      destruct (nextCAPI env ClusterSummary (tr ++ [EvGet ctx capiCRDName])).
      * destruct (IH retries
                    ((tr ++ [EvGet ctx capiCRDName]) ++
                     [EvLog LvlLogInfo "CAPI present.";
                      EvWatchForCAPI ClusterSummary])) as [I1 [I2 I3]].
        unfold noNilDereference. rewrite I2, I3, !count_app.
        split; [exact I1|]. split; unfold count; simpl; lia.
      * unfold noNilDereference, ret. simpl fst. simpl snd.
        rewrite !count_app. split; [discriminate|]. split; unfold count; simpl; lia.
Qed.

(** C10. With a shard key the set-up creates only the ClusterSummary
    reconciler and leaves the ClusterProfile and Profile ones nil.  With
    these arguments the attach pass of the CAPI pipeline calls WatchForCAPI
    on the ClusterSummary reconciler only, and the pipeline as a whole never
    registers a CAPI watch on a nil reconciler and never ends in a nil
    dereference. *)
Theorem sharded_skips_nil_reconcilers (env : Env) (shardKey : string)
        (ctx : Context) (fuel : nat) (tr : Trace) :
  shardKey <> "" ->
  (forall rs tr',
      mainReconcilers env shardKey tr = (Returned rs, tr') ->
      clusterProfileReconciler rs = None /\
      profileReconciler rs = None /\
      clusterSummaryReconciler rs = Some TheClusterSummaryReconciler /\
      tr' = tr ++ [EvSetup ClusterSummary]) /\
  (setupErr env ClusterSummary = None ->
   exists rs, fst (mainReconcilers env shardKey tr) = Returned rs) /\
  snd (capiAttach env None None (Some TheClusterSummaryReconciler) tr) =
    tr ++ [EvLog LvlLogInfo "CAPI present."; EvWatchForCAPI ClusterSummary] /\
  (exists c,
      fst (capiAttach env None None (Some TheClusterSummaryReconciler) tr) =
      Returned c) /\
  noNilDereference
    (capiWatchers env ctx None None (Some TheClusterSummaryReconciler)
       fuel tr) tr.
Proof.
  intros Hkey.
  assert (Hcs : Some TheClusterSummaryReconciler <> None) by discriminate.
  split; [|split; [|split; [|split]]].
  - intros rs tr'. rewrite (mainReconcilers_sharded env shardKey tr Hkey).
    destruct (setupErr env ClusterSummary); intros E; inversion E.
    repeat split; reflexivity.
  - intros E. rewrite (mainReconcilers_sharded env shardKey tr Hkey), E.
    eexists. reflexivity.
  - rewrite (capiAttach_sharded env _ tr Hcs). reflexivity.
  - rewrite (capiAttach_sharded env _ tr Hcs). eexists. reflexivity.
  - apply capiWatchers_sharded, Hcs.
Qed.

Lemma sharded_skips_nil_reconcilers_witness :
  "shard1" <> "" /\
  noNilDereference
    (capiWatchers presentEnv live None None
       (Some TheClusterSummaryReconciler) 3 []) [].
Proof.
  assert (H : "shard1" <> "") by discriminate.
  split; [exact H|].
  apply (sharded_skips_nil_reconcilers presentEnv "shard1" live 3 [] H).
Defined.

(** the guards matter: the unguarded call on a nil reconciler panics *)
Example unguarded_nil_call_panics :
  WatchForCAPI presentEnv ClusterProfile
    (None : Ptr ClusterProfileReconciler) [] =
  (Panicked "nil pointer dereference", []).
Proof. reflexivity. Qed.

(** ** Pipelines and the manager's start *)

Lemma filter_none (q : Event -> bool) (l : Trace) :
  forallb (fun e => negb (q e)) l = true -> filter q l = [].
Proof.
  induction l as [|e l IH]; simpl; intros H; [reflexivity|].
  apply andb_true_iff in H. destruct H as [He Hl].
  destruct (q e); [discriminate|auto].
Qed.

Lemma filter_filter_sub (q r : Event -> bool) (l : Trace) :
  (forall e, q e = true -> r e = true) ->
  filter q (filter r l) = filter q l.
Proof.
  intros H. induction l as [|e l IH]; simpl; [reflexivity|].
  destruct (r e) eqn:R; simpl.
  - rewrite IH. reflexivity.
  - destruct (q e) eqn:Q; [rewrite (H e Q) in R; discriminate|exact IH].
Qed.

Lemma goroutine_quiet env ctx fuel g :
  quiet (snd (goroutineBody env ctx g fuel [])).
Proof.
  assert (A : appends pipelineCall (goroutineBody env ctx g fuel)).
  { destruct g; simpl; [apply appends_capiWatchers_loop
                       |apply appends_fluxWatchers_loop]. }
  destruct (A []) as [added [E F]]. rewrite E. simpl.
  apply filter_none. rewrite forallb_forall in *. intros e He.
  specialize (F e He). destruct e; simpl in *; congruence.
Qed.

Lemma spawned_quiet env ctx fuel e :
  Forall quiet (spawned env ctx fuel e).
Proof.
  destruct e; simpl; try constructor; [apply goroutine_quiet|constructor].
Qed.

Lemma stepRoutine_quiet i :
  forall gs e gs',
    Forall quiet gs -> stepRoutine i gs = Some (e, gs') ->
    mainCall e = false /\ Forall quiet gs'.
Proof.
  induction i as [|i IH]; intros [|g gs] e gs' Q H; simpl in H;
    try discriminate; inversion Q as [|? ? Qg Qgs]; subst.
  - destruct g as [|e0 g0]; [discriminate|]. inversion H; subst.
    unfold quiet in Qg. simpl in Qg.
    destruct (mainCall e) eqn:M; [discriminate|].
    split; [reflexivity|]. constructor; assumption.
  - destruct (stepRoutine i gs) as [[e1 gs1]|] eqn:S; [|discriminate].
    inversion H; subst. destruct (IH gs e gs1 Qgs S) as [M Q1].
    split; [exact M|]. constructor; assumption.
Qed.

Lemma runSchedule_main_order env ctx fuel sched :
  forall p,
    Forall quiet (routines p) ->
    exists rest,
      filter mainCall (mainRest p) =
      filter mainCall (runSchedule env ctx fuel sched p) ++ rest.
Proof.
  induction sched as [|[|i] sched IH]; intros p Q; simpl.
  - eauto.
  - destruct (mainRest p) as [|e rest] eqn:M.
    + destruct (IH p Q) as [r Hr]. rewrite M in Hr. eauto.
    + destruct (IH {| mainRest := rest;
                      routines := routines p ++ spawned env ctx fuel e |})
        as [r Hr].
      { simpl. apply Forall_app. split; [exact Q|apply spawned_quiet]. }
      simpl in Hr. simpl. exists r.
      destruct (mainCall e); rewrite Hr; reflexivity.
  - destruct (stepRoutine i (routines p)) as [[e gs]|] eqn:S.
    + destruct (stepRoutine_quiet i _ _ _ Q S) as [M Q'].
      destruct (IH {| mainRest := mainRest p; routines := gs |} Q')
        as [r Hr].
      simpl in Hr. simpl. rewrite M. exists r. exact Hr.
    + apply IH, Q.
Qed.

Lemma main_calls env shardKey :
  filter mainCall (snd (main env shardKey [])) = [] \/
  exists cp p cs,
    filter mainCall (snd (main env shardKey [])) =
    [EvGo (GoCapiWatchers cp p cs); EvGo (GoFluxWatchers cs); EvMgrStart].
Proof.
  unfold main, mainReconcilers, setupChecks, setupIndexes, startWatchers, go,
    setupOrExit, log_Info, log_Error, bind, emit, ret, os_Exit.
  destruct (String.eqb shardKey ""); simpl;
    destruct (setupErr env ClusterProfile), (setupErr env Profile),
      (setupErr env ClusterSummary), (healthzErr env), (readyzErr env),
      (indexErr env), (mgrStartErr env); simpl; eauto.
Qed.

(** C7 (as stated) fails. With both CRDs installed and a schedule that lets
    the main thread reach mgr.Start before the goroutines run, every
    registration is made after the manager's start call. *)
Lemma attach_can_follow_manager_start :
  ~ attachBeforeStart (process presentEnv live 5 "" mainFirst).
Proof.
  intros H.
  specialize (H (firstn 10 (process presentEnv live 5 "" mainFirst))
                (skipn 11 (process presentEnv live 5 "" mainFirst))
                eq_refl).
  vm_compute in H. discriminate.
Qed.

(** C7 (amended). startWatchers only starts the two pipelines as goroutines
    and returns: under every schedule both go statements, CAPI then Flux,
    have run when mgr.Start is called.  The registrations are made by the
    goroutines and are not ordered with the manager's start: there is a
    schedule under which all four of them precede it (and one under which
    they all follow it). *)
Theorem pipelines_started_before_manager (env : Env) (ctx : Context)
        (fuel : nat) (shardKey : string) (sched : list nat)
        (pre post : Trace) :
  process env ctx fuel shardKey sched = pre ++ EvMgrStart :: post ->
  (exists cp p cs,
      filter isGo pre =
      [EvGo (GoCapiWatchers cp p cs); EvGo (GoFluxWatchers cs)]) /\
  (exists sched1 pre1 post1,
      process presentEnv live 5 "" sched1 = pre1 ++ EvMgrStart :: post1 /\
      count isAttach pre1 = 4 /\ count isAttach post1 = 0) /\
  (exists sched2 pre2 post2,
      process presentEnv live 5 "" sched2 = pre2 ++ EvMgrStart :: post2 /\
      count isAttach pre2 = 0 /\ count isAttach post2 = 4).
Proof.
  intros H. split; [|split].
  - unfold process in H.
    destruct (runSchedule_main_order env ctx fuel sched
                {| mainRest := snd (main env shardKey []); routines := [] |})
      as [rest Hr]; [constructor|].
    simpl mainRest in Hr. rewrite H in Hr.
    rewrite filter_app in Hr. simpl in Hr.
    assert (G : filter isGo (filter mainCall pre) = filter isGo pre).
    { apply filter_filter_sub. intros e E. unfold mainCall. rewrite E.
      reflexivity. }
    destruct (main_calls env shardKey) as [M|[cp [p [cs M]]]];
      rewrite M in Hr.
    + destruct (filter mainCall pre); discriminate.
    + exists cp, p, cs. rewrite <- G.
      destruct (filter mainCall pre) as [|a [|b [|c l]]];
        simpl in Hr; inversion Hr; subst; try reflexivity.
      destruct l; discriminate.
  - exists goroutinesFirst,
      (removelast (process presentEnv live 5 "" goroutinesFirst)), [].
    vm_compute. repeat split; reflexivity.
  - exists mainFirst,
      (firstn 10 (process presentEnv live 5 "" mainFirst)),
      (skipn 11 (process presentEnv live 5 "" mainFirst)).
    vm_compute. repeat split; reflexivity.
Qed.

Lemma pipelines_started_before_manager_witness :
  process presentEnv live 5 "" mainFirst =
    firstn 10 (process presentEnv live 5 "" mainFirst) ++
    EvMgrStart :: skipn 11 (process presentEnv live 5 "" mainFirst) /\
  exists cp p cs,
    filter isGo (firstn 10 (process presentEnv live 5 "" mainFirst)) =
    [EvGo (GoCapiWatchers cp p cs); EvGo (GoFluxWatchers cs)].
Proof.
  assert (H : process presentEnv live 5 "" mainFirst =
              firstn 10 (process presentEnv live 5 "" mainFirst) ++
              EvMgrStart :: skipn 11 (process presentEnv live 5 "" mainFirst))
    by reflexivity.
  split; [exact H|].
  apply (pipelines_started_before_manager presentEnv live 5 "" mainFirst
           _ _ H).
Defined.

(** ** The shutdown context *)

Lemma count_eraseCtx (q : Event -> bool) (tr : Trace) :
  (forall e, q (eraseCtx e) = q e) ->
  count q (map eraseCtx tr) = count q tr.
Proof.
  intros H. induction tr as [|e tr IH]; [reflexivity|].
  simpl map. rewrite !count_cons, IH, H. reflexivity.
Qed.

Lemma count_sameCalls (q : Event -> bool) (tr tr' : Trace) :
  (forall e, q (eraseCtx e) = q e) ->
  sameCalls tr tr' -> count q tr = count q tr'.
Proof.
  intros H R. rewrite <- (count_eraseCtx q tr H), R.
  apply count_eraseCtx, H.
Qed.

Lemma sameCalls_snoc tr tr' e e' :
  sameCalls tr tr' -> eraseCtx e = eraseCtx e' ->
  sameCalls (tr ++ [e]) (tr' ++ [e']).
Proof.
  unfold sameCalls. intros R E. rewrite !map_app, R. simpl. rewrite E.
  reflexivity.
Qed.

Lemma sim_ret {A} (a : A) : simCtx (ret a) (ret a).
Proof. intros tr tr' R. split; [reflexivity|exact R]. Qed.

Lemma sim_panic {A} msg : simCtx (@panic A msg) (panic msg).
Proof. intros tr tr' R. split; [reflexivity|exact R]. Qed.

Lemma sim_running {A} : simCtx (@running A) running.
Proof. intros tr tr' R. split; [reflexivity|exact R]. Qed.

Lemma sim_emit e e' :
  eraseCtx e = eraseCtx e' -> simCtx (emit e) (emit e').
Proof.
  intros E tr tr' R. split; [reflexivity|].
  apply sameCalls_snoc; assumption.
Qed.

Lemma sim_bind {A B} (m m' : M A) (f f' : A -> M B) :
  simCtx m m' -> (forall a, simCtx (f a) (f' a)) ->
  simCtx (bind m f) (bind m' f').
Proof.
  intros Hm Hf tr tr' R. unfold bind.
  destruct (Hm tr tr' R) as [E R'].
  destruct (m tr) as [[a| | |] t], (m' tr') as [[a'| | |] t'];
    simpl in E, R'; try discriminate; inversion E; subst;
    try (split; [reflexivity|exact R']).
  apply Hf, R'.
Qed.

Lemma sim_client_Get env ctx ctx' name :
  (forall n, getCRD env ctx n name = getCRD env ctx' n name) ->
  simCtx (client_Get env ctx name) (client_Get env ctx' name).
Proof.
  intros H tr tr' R. unfold client_Get. simpl.
  rewrite (count_sameCalls isGet tr tr'), H;
    [|intros []; reflexivity|exact R].
  split; [reflexivity|]. apply sameCalls_snoc; [exact R|reflexivity].
Qed.

Lemma sim_syscall_Kill env p sig :
  simCtx (syscall_Kill env p sig) (syscall_Kill env p sig).
Proof.
  intros tr tr' R. unfold syscall_Kill. simpl.
  rewrite (count_sameCalls isKill tr tr');
    [|intros []; reflexivity|exact R].
  split; [reflexivity|]. apply sameCalls_snoc; [exact R|reflexivity].
Qed.

Lemma sim_WatchForCAPI env {A} k (r : Ptr A) :
  simCtx (WatchForCAPI env k r) (WatchForCAPI env k r).
Proof.
  destruct r as [a|]; [|apply sim_panic].
  intros tr tr' R. simpl.
  rewrite (count_sameCalls (isWatchForCAPI k) tr tr');
    [|intros []; reflexivity|exact R].
  split; [reflexivity|]. apply sameCalls_snoc; [exact R|reflexivity].
Qed.

Lemma sim_WatchForFlux env r :
  simCtx (WatchForFlux env r) (WatchForFlux env r).
Proof.
  destruct r as [a|]; [|apply sim_panic].
  intros tr tr' R. simpl.
  rewrite (count_sameCalls isWatchForFlux tr tr');
    [|intros []; reflexivity|exact R].
  split; [reflexivity|]. apply sameCalls_snoc; [exact R|reflexivity].
Qed.

Ltac sim_tac :=
  repeat first
    [ apply sim_ret | apply sim_panic | apply sim_running
    | apply sim_emit; reflexivity
    | apply sim_syscall_Kill
    | apply sim_WatchForCAPI
    | apply sim_WatchForFlux
    | apply sim_bind; [|intros ?]
    | match goal with
      | |- simCtx (match ?x with _ => _ end) _ => destruct x
      | |- simCtx (if ?x then _ else _) _ => destruct x
      end ].

Lemma sim_handler env h gvk :
  simCtx (handlerOf env h gvk) (handlerOf env h gvk).
Proof.
  destruct h; simpl; unfold capiCRDHandler, fluxCRDHandler, syscall_Getpid;
    sim_tac.
Qed.

Lemma sim_deliver env h evs :
  simCtx (deliver (handlerOf env h) evs) (deliver (handlerOf env h) evs).
Proof.
  induction evs as [|gvk evs IH]; simpl.
  - apply sim_ret.
  - apply sim_bind; [apply sim_handler|intros _; exact IH].
Qed.

Lemma sim_go_Watch env ctx ctx' h :
  crdEvents env ctx = crdEvents env ctx' ->
  simCtx (go_WatchCustomResourceDefinition env ctx h)
         (go_WatchCustomResourceDefinition env ctx' h).
Proof.
  intros H. unfold go_WatchCustomResourceDefinition. rewrite H.
  apply sim_bind; [apply sim_emit; reflexivity|intros _].
  apply sim_deliver.
Qed.

Lemma sim_capiAttach env cp p cs :
  simCtx (capiAttach env cp p cs) (capiAttach env cp p cs).
Proof. unfold capiAttach, log_Info. sim_tac. Qed.

Lemma sim_fluxAttach env cs :
  simCtx (fluxAttach env cs) (fluxAttach env cs).
Proof. unfold fluxAttach, log_Info. sim_tac. Qed.

Section ContextForwarded.

Variable env : Env.
Variables ctx ctx' : Context.
Hypothesis sameReads :
  forall n name, getCRD env ctx n name = getCRD env ctx' n name.
Hypothesis sameEvents : crdEvents env ctx = crdEvents env ctx'.

Lemma sim_capiWatchers_loop cp p cs fuel :
  forall retries,
    simCtx (capiWatchers_loop env ctx cp p cs fuel retries)
           (capiWatchers_loop env ctx' cp p cs fuel retries).
Proof.
  induction fuel as [|fuel IH]; intros retries; simpl.
  - apply sim_running.
  - apply sim_bind.
    { unfold isCAPIInstalled. apply sim_bind.
      - apply sim_client_Get. intros n. apply sameReads.
      - intros a. sim_tac. }
    intros [present [err|]].
    + apply sim_bind; [|intros _; apply IH].
      unfold log_Info, time_Sleep. sim_tac.
    + apply sim_bind.
      * destruct (negb present).
        -- apply sim_bind; [apply sim_emit; reflexivity|intros _].
           apply sim_bind; [apply sim_go_Watch, sameEvents|intros _].
           apply sim_ret.
        -- apply sim_capiAttach.
      * intros [|]; [apply IH|apply sim_ret].
Qed.

Lemma sim_fluxWatchers_loop cs fuel :
  forall retries,
    simCtx (fluxWatchers_loop env ctx cs fuel retries)
           (fluxWatchers_loop env ctx' cs fuel retries).
Proof.
  induction fuel as [|fuel IH]; intros retries; simpl.
  - apply sim_running.
  - apply sim_bind.
    { unfold isFluxInstalled. apply sim_bind.
      - apply sim_client_Get. intros n. apply sameReads.
      - intros a. sim_tac. }
    intros [present [err|]].
    + apply sim_bind; [|intros _; apply IH].
      unfold log_Info, time_Sleep. sim_tac.
    + apply sim_bind.
      * destruct (negb present).
        -- apply sim_bind; [apply sim_emit; reflexivity|intros _].
           apply sim_bind; [apply sim_go_Watch, sameEvents|intros _].
           apply sim_ret.
        -- apply sim_fluxAttach.
      * intros [|]; [apply IH|apply sim_ret].
Qed.

End ContextForwarded.

(** C8 (as stated) fails. Once the context is done and the reads fail with
    its error, neither pipeline exits, whatever the number of passes; and
    each of the first twenty failed probes is still followed by a full
    one-second time.Sleep. *)
Lemma cancelled_pipeline_keeps_running :
  ctxDone cancelled = true /\
  count isSleep
    (snd (capiWatchers shutdownEnv cancelled
            (Some TheClusterProfileReconciler) (Some TheProfileReconciler)
            (Some TheClusterSummaryReconciler) 25 [])) = 20 /\
  count isSleep
    (snd (fluxWatchers shutdownEnv cancelled
            (Some TheClusterSummaryReconciler) 25 [])) = 20 /\
  (forall fuel,
      fst (capiWatchers shutdownEnv cancelled
             (Some TheClusterProfileReconciler) (Some TheProfileReconciler)
             (Some TheClusterSummaryReconciler) fuel []) = Running /\
      fst (fluxWatchers shutdownEnv cancelled
             (Some TheClusterSummaryReconciler) fuel []) = Running).
Proof.
  split; [reflexivity|]. split; [vm_compute; reflexivity|].
  split; [vm_compute; reflexivity|].
  intros fuel. split.
  - apply capi_always_error. intros n. exists "context canceled".
    reflexivity.
  - apply flux_always_error. intros n. exists "context canceled".
    reflexivity.
Qed.

(** C8 (amended). The pipelines never inspect the shutdown context: they
    only pass it to the CRD read and to the CRD watcher, and the handlers do
    not receive it.  So whenever the reads answer alike and the watcher
    delivers the same events under two contexts, a pipeline ends the same
    way and makes the same calls under both, sleeps included. *)
Theorem context_only_forwarded (env : Env) (ctx ctx' : Context)
        (cp : Ptr ClusterProfileReconciler) (p : Ptr ProfileReconciler)
        (cs : Ptr ClusterSummaryReconciler) (fuel : nat) :
  (forall n name, getCRD env ctx n name = getCRD env ctx' n name) ->
  crdEvents env ctx = crdEvents env ctx' ->
  (fst (capiWatchers env ctx cp p cs fuel []) =
   fst (capiWatchers env ctx' cp p cs fuel []) /\
   map eraseCtx (snd (capiWatchers env ctx cp p cs fuel [])) =
   map eraseCtx (snd (capiWatchers env ctx' cp p cs fuel []))) /\
  (fst (fluxWatchers env ctx cs fuel []) =
   fst (fluxWatchers env ctx' cs fuel []) /\
   map eraseCtx (snd (fluxWatchers env ctx cs fuel [])) =
   map eraseCtx (snd (fluxWatchers env ctx' cs fuel []))).
Proof.
  intros Hr He. split.
  - apply (sim_capiWatchers_loop env ctx ctx' Hr He cp p cs fuel 0%Z [] []).
    reflexivity.
  - apply (sim_fluxWatchers_loop env ctx ctx' Hr He cs fuel 0%Z [] []).
    reflexivity.
Qed.

Lemma context_only_forwarded_witness :
  (forall n name,
      getCRD transientEnv live n name = getCRD transientEnv cancelled n name)
  /\ crdEvents transientEnv live = crdEvents transientEnv cancelled /\
  fst (fluxWatchers transientEnv live (Some TheClusterSummaryReconciler)
         30 []) =
  fst (fluxWatchers transientEnv cancelled
         (Some TheClusterSummaryReconciler) 30 []) /\
  map eraseCtx
    (snd (fluxWatchers transientEnv live (Some TheClusterSummaryReconciler)
            30 [])) =
  map eraseCtx
    (snd (fluxWatchers transientEnv cancelled
            (Some TheClusterSummaryReconciler) 30 [])).
Proof.
  assert (Hr : forall n name,
             getCRD transientEnv live n name =
             getCRD transientEnv cancelled n name) by reflexivity.
  assert (He : crdEvents transientEnv live = crdEvents transientEnv cancelled)
    by reflexivity.
  split; [exact Hr|]. split; [exact He|].
  apply (context_only_forwarded transientEnv live cancelled
           (Some TheClusterProfileReconciler) (Some TheProfileReconciler)
           (Some TheClusterSummaryReconciler) 30 Hr He).
Defined.

(** * Further properties of the pipelines and of main *)

(** ** Probes that fail for a while *)

Lemma wrap_int_small (z : Z) :
  (- 2 ^ 63 <= z < 2 ^ 63)%Z -> wrap_int z = z.
Proof.
  intros H. unfold wrap_int. rewrite Z.mod_small; lia.
Qed.

Lemma count_none (P q : Event -> bool) (l : Trace) :
  forallb P l = true -> (forall e, P e = true -> q e = false) ->
  count q l = 0.
Proof.
  intros F H. apply count_zero_forall. rewrite forallb_forall in *.
  intros e He. rewrite (H e (F e He)). reflexivity.
Qed.

Lemma sleptSeconds_app (a b : Trace) :
  sleptSeconds (a ++ b) = (sleptSeconds a + sleptSeconds b)%Z.
Proof.
  induction a as [|e a IH]; simpl; [reflexivity|].
  destruct e; rewrite ?IH; lia.
Qed.

Lemma sleptSeconds_none (P : Event -> bool) (l : Trace) :
  forallb P l = true -> (forall e, P e = true -> isSleep e = false) ->
  sleptSeconds l = 0%Z.
Proof.
  intros F H. induction l as [|e l IH]; [reflexivity|].
  simpl in F. apply andb_true_iff in F. destruct F as [Fe Fl].
  specialize (H e Fe). destruct e; simpl in *; try discriminate; auto.
Qed.

Lemma failedProbe_shape ctx name what cause retries :
  forallb failedProbeCall (failedProbe ctx name what cause retries) = true /\
  sleptSeconds (failedProbe ctx name what cause retries) =
    (if (retries <? maxRetries)%Z then 1 else 0)%Z.
Proof.
  unfold failedProbe. destruct (retries <? maxRetries)%Z; split; reflexivity.
Qed.

Lemma capi_errors_run env ctx cp p cs k :
  forall m retries tr,
    (0 <= retries)%Z -> (retries + Z.of_nat k < 2 ^ 63)%Z ->
    (forall n, n < k ->
               exists cause,
                 getCRD env ctx (count isGet tr + n) capiCRDName =
                 Some (OtherError cause)) ->
    exists added,
      capiWatchers_loop env ctx cp p cs (k + m) retries tr =
      capiWatchers_loop env ctx cp p cs m (retries + Z.of_nat k)
        (tr ++ added) /\
      forallb failedProbeCall added = true /\
      count isGet added = k /\
      sleptSeconds added =
        Z.max 0 (Z.min (Z.of_nat k) (maxRetries - retries)).
Proof.
  unfold maxRetries.
  induction k as [|k IH]; intros m retries tr H0 Hb Herr.
  - exists []. rewrite app_nil_r, Z.add_0_r. simpl.
    repeat split; try reflexivity. lia.
  - destruct (Herr 0) as [cause Hc]; [lia|]. rewrite Nat.add_0_r in Hc.
    simpl Nat.add.
    rewrite (capi_step_error env ctx cp p cs (k + m) retries tr cause Hc).
    rewrite wrap_int_small by lia.
    destruct (failedProbe_counts ctx capiCRDName "CAPI" cause retries)
      as [G1 _].
    destruct (failedProbe_shape ctx capiCRDName "CAPI" cause retries)
      as [S1 S2].
    destruct (IH m (retries + 1)%Z
                 (tr ++ failedProbe ctx capiCRDName "CAPI" cause retries))
      as [added [E [F [G Sl]]]]; [lia|lia| |].
    { intros n Hn. rewrite count_app, G1.
      replace (count isGet tr + 1 + n) with (count isGet tr + S n) by lia.
      apply Herr. lia. }
    exists (failedProbe ctx capiCRDName "CAPI" cause retries ++ added).
    rewrite app_assoc, E, forallb_app, S1, F, count_app, G1, G,
      sleptSeconds_app, S2, Sl.
    unfold maxRetries.
    replace (retries + 1 + Z.of_nat k)%Z with (retries + Z.of_nat (S k))%Z
      by lia.
    repeat split; try reflexivity.
    destruct (retries <? 20)%Z eqn:L;
      [apply Z.ltb_lt in L|apply Z.ltb_ge in L]; lia.
Qed.

Lemma flux_errors_run env ctx cs k :
  forall m retries tr,
    (0 <= retries)%Z -> (retries + Z.of_nat k < 2 ^ 63)%Z ->
    (forall n, n < k ->
               exists cause,
                 getCRD env ctx (count isGet tr + n) fluxCRDName =
                 Some (OtherError cause)) ->
    exists added,
      fluxWatchers_loop env ctx cs (k + m) retries tr =
      fluxWatchers_loop env ctx cs m (retries + Z.of_nat k) (tr ++ added) /\
      forallb failedProbeCall added = true /\
      count isGet added = k /\
      sleptSeconds added =
        Z.max 0 (Z.min (Z.of_nat k) (maxRetries - retries)).
Proof.
  unfold maxRetries.
  induction k as [|k IH]; intros m retries tr H0 Hb Herr.
  - exists []. rewrite app_nil_r, Z.add_0_r. simpl.
    repeat split; try reflexivity. lia.
  - destruct (Herr 0) as [cause Hc]; [lia|]. rewrite Nat.add_0_r in Hc.
    simpl Nat.add.
    rewrite (flux_step_error env ctx cs (k + m) retries tr cause Hc).
    rewrite wrap_int_small by lia.
    destruct (failedProbe_counts ctx fluxCRDName "Flux" cause retries)
      as [G1 _].
    destruct (failedProbe_shape ctx fluxCRDName "Flux" cause retries)
      as [S1 S2].
    destruct (IH m (retries + 1)%Z
                 (tr ++ failedProbe ctx fluxCRDName "Flux" cause retries))
      as [added [E [F [G Sl]]]]; [lia|lia| |].
    { intros n Hn. rewrite count_app, G1.
      replace (count isGet tr + 1 + n) with (count isGet tr + S n) by lia.
      apply Herr. lia. }
    exists (failedProbe ctx fluxCRDName "Flux" cause retries ++ added).
    rewrite app_assoc, E, forallb_app, S1, F, count_app, G1, G,
      sleptSeconds_app, S2, Sl.
    unfold maxRetries.
    replace (retries + 1 + Z.of_nat k)%Z with (retries + Z.of_nat (S k))%Z
      by lia.
    repeat split; try reflexivity.
    destruct (retries <? 20)%Z eqn:L;
      [apply Z.ltb_lt in L|apply Z.ltb_ge in L]; lia.
Qed.

Lemma capi_absent_run env ctx cp p cs fuel retries tr :
  getCRD env ctx (count isGet tr) capiCRDName = Some NotFound ->
  exists kills,
    snd (capiWatchers_loop env ctx cp p cs (S fuel) retries tr) =
    tr ++ [EvGet ctx capiCRDName;
           EvLog LvlLogInfo "CAPI currently not present. Starting CRD watcher";
           EvGoWatchCRD ctx CapiCRDHandler] ++ kills /\
    forallb isKill kills = true /\
    (fst (capiWatchers_loop env ctx cp p cs (S fuel) retries tr) =
       Returned tt \/
     fst (capiWatchers_loop env ctx cp p cs (S fuel) retries tr) =
       Panicked "kill -TERM failed").
Proof.
  intros H. rewrite (capi_step_absent env ctx cp p cs fuel retries tr H).
  destruct (appends_deliver env CapiCRDHandler (crdEvents env ctx)
              (tr ++ [EvGet ctx capiCRDName;
                      EvLog LvlLogInfo
                        "CAPI currently not present. Starting CRD watcher";
                      EvGoWatchCRD ctx CapiCRDHandler])) as [kills [E F]].
  exists kills. simpl handlerOf in E. rewrite E, <- app_assoc.
  repeat split; [exact F|].
  apply (deliver_outcome env CapiCRDHandler).
Qed.

Lemma flux_absent_run env ctx cs fuel retries tr :
  getCRD env ctx (count isGet tr) fluxCRDName = Some NotFound ->
  exists kills,
    snd (fluxWatchers_loop env ctx cs (S fuel) retries tr) =
    tr ++ [EvGet ctx fluxCRDName;
           EvLog LvlLogInfo "Flux currently not present. Starting CRD watcher";
           EvGoWatchCRD ctx FluxCRDHandler] ++ kills /\
    forallb isKill kills = true /\
    (fst (fluxWatchers_loop env ctx cs (S fuel) retries tr) = Returned tt \/
     fst (fluxWatchers_loop env ctx cs (S fuel) retries tr) =
       Panicked "kill -TERM failed").
Proof.
  intros H. rewrite (flux_step_absent env ctx cs fuel retries tr H).
  destruct (appends_deliver env FluxCRDHandler (crdEvents env ctx)
              (tr ++ [EvGet ctx fluxCRDName;
                      EvLog LvlLogInfo
                        "Flux currently not present. Starting CRD watcher";
                      EvGoWatchCRD ctx FluxCRDHandler])) as [kills [E F]].
  exists kills. simpl handlerOf in E. rewrite E, <- app_assoc.
  repeat split; [exact F|].
  apply (deliver_outcome env FluxCRDHandler).
Qed.

Lemma failedProbeCall_no_watch e :
  failedProbeCall e = true -> isGoWatchCRD e = false.
Proof. destruct e; simpl; congruence. Qed.

Lemma failedProbeCall_no_attach e :
  failedProbeCall e = true -> isAttach e = false.
Proof. destruct e; simpl; congruence. Qed.

Lemma failedProbeCall_no_capi k e :
  failedProbeCall e = true -> isWatchForCAPI k e = false.
Proof. destruct e; simpl; try congruence; destruct k; reflexivity. Qed.

Lemma failedProbeCall_no_flux e :
  failedProbeCall e = true -> isWatchForFlux e = false.
Proof. destruct e; simpl; congruence. Qed.

Lemma isKill_no_get e : isKill e = true -> isGet e = false.
Proof. destruct e; simpl; congruence. Qed.

Lemma isKill_no_sleep e : isKill e = true -> isSleep e = false.
Proof. destruct e; simpl; congruence. Qed.

Lemma isKill_no_watch e : isKill e = true -> isGoWatchCRD e = false.
Proof. destruct e; simpl; congruence. Qed.

Lemma isKill_no_attach e : isKill e = true -> isAttach e = false.
Proof. destruct e; simpl; congruence. Qed.

(** X1. When the first [k] probes fail with errors other than not-found and
    the next one answers not-found, the pipeline makes [k + 1] probes,
    sleeps [min k 20] seconds in all, then starts the CRD watcher once,
    attaches nothing and ends: a late not-found answer is honoured however
    many probes failed before it. *)
Theorem errors_then_absent_starts_watcher (env : Env) (ctx : Context)
        (cp : Ptr ClusterProfileReconciler) (p : Ptr ProfileReconciler)
        (cs : Ptr ClusterSummaryReconciler) (k fuel : nat) :
  (Z.of_nat k < 2 ^ 63)%Z ->
  (failsThenAnswers env ctx capiCRDName k (Some NotFound) ->
   let r := capiWatchers env ctx cp p cs (k + S fuel) [] in
   count isGet (snd r) = k + 1 /\
   sleptSeconds (snd r) = Z.min (Z.of_nat k) maxRetries /\
   count isGoWatchCRD (snd r) = 1 /\
   count isAttach (snd r) = 0 /\
   (fst r = Returned tt \/ fst r = Panicked "kill -TERM failed")) /\
  (failsThenAnswers env ctx fluxCRDName k (Some NotFound) ->
   let r := fluxWatchers env ctx cs (k + S fuel) [] in
   count isGet (snd r) = k + 1 /\
   sleptSeconds (snd r) = Z.min (Z.of_nat k) maxRetries /\
   count isGoWatchCRD (snd r) = 1 /\
   count isAttach (snd r) = 0 /\
   (fst r = Returned tt \/ fst r = Panicked "kill -TERM failed")).
Proof.
  intros Hk. split; intros [Herr Hans]; cbv zeta.
  - unfold capiWatchers.
    destruct (capi_errors_run env ctx cp p cs k (S fuel) 0%Z [])
      as [added [E [F [G Sl]]]]; [lia|lia|exact Herr|].
    rewrite E. simpl app.
    destruct (capi_absent_run env ctx cp p cs fuel (0 + Z.of_nat k)%Z added)
      as [kills [T [K O]]]; [rewrite G; exact Hans|].
    rewrite T, !count_app, !sleptSeconds_app, G, Sl.
    rewrite (count_none _ isGoWatchCRD _ F failedProbeCall_no_watch),
      (count_none _ isAttach _ F failedProbeCall_no_attach),
      (count_none _ isGet _ K isKill_no_get),
      (count_none _ isGoWatchCRD _ K isKill_no_watch),
      (count_none _ isAttach _ K isKill_no_attach),
      (sleptSeconds_none _ _ K isKill_no_sleep).
    unfold maxRetries. simpl. repeat split; try lia. exact O.
  - unfold fluxWatchers.
    destruct (flux_errors_run env ctx cs k (S fuel) 0%Z [])
      as [added [E [F [G Sl]]]]; [lia|lia|exact Herr|].
    rewrite E. simpl app.
    destruct (flux_absent_run env ctx cs fuel (0 + Z.of_nat k)%Z added)
      as [kills [T [K O]]]; [rewrite G; exact Hans|].
    rewrite T, !count_app, !sleptSeconds_app, G, Sl.
    rewrite (count_none _ isGoWatchCRD _ F failedProbeCall_no_watch),
      (count_none _ isAttach _ F failedProbeCall_no_attach),
      (count_none _ isGet _ K isKill_no_get),
      (count_none _ isGoWatchCRD _ K isKill_no_watch),
      (count_none _ isAttach _ K isKill_no_attach),
      (sleptSeconds_none _ _ K isKill_no_sleep).
    unfold maxRetries. simpl. repeat split; try lia. exact O.
Qed.

Lemma lateEnv_failsThenAnswers ctx name k a :
  failsThenAnswers (lateEnv k a) ctx name k a.
Proof.
  split.
  - intros n Hn. exists "timeout". simpl.
    apply Nat.ltb_lt in Hn. rewrite Hn. reflexivity.
  - simpl. rewrite Nat.ltb_irrefl. reflexivity.
Qed.

Lemma errors_then_absent_starts_watcher_witness :
  (Z.of_nat 25 < 2 ^ 63)%Z /\
  failsThenAnswers (lateEnv 25 (Some NotFound)) live capiCRDName 25
    (Some NotFound) /\
  failsThenAnswers (lateEnv 25 (Some NotFound)) live fluxCRDName 25
    (Some NotFound) /\
  sleptSeconds
    (snd (capiWatchers (lateEnv 25 (Some NotFound)) live
            (Some TheClusterProfileReconciler) (Some TheProfileReconciler)
            (Some TheClusterSummaryReconciler) (25 + 1) [])) =
    Z.min (Z.of_nat 25) maxRetries /\
  count isGoWatchCRD
    (snd (fluxWatchers (lateEnv 25 (Some NotFound)) live
            (Some TheClusterSummaryReconciler) (25 + 1) [])) = 1.
Proof.
  assert (Hk : (Z.of_nat 25 < 2 ^ 63)%Z) by (vm_compute; reflexivity).
  split; [exact Hk|].
  split; [apply lateEnv_failsThenAnswers|].
  split; [apply lateEnv_failsThenAnswers|].
  split.
  - apply (proj1 (errors_then_absent_starts_watcher
                    (lateEnv 25 (Some NotFound)) live
                    (Some TheClusterProfileReconciler)
                    (Some TheProfileReconciler)
                    (Some TheClusterSummaryReconciler) 25 0 Hk)).
    apply lateEnv_failsThenAnswers.
  - apply (proj2 (errors_then_absent_starts_watcher
                    (lateEnv 25 (Some NotFound)) live
                    (Some TheClusterProfileReconciler)
                    (Some TheProfileReconciler)
                    (Some TheClusterSummaryReconciler) 25 0 Hk)).
    apply lateEnv_failsThenAnswers.
Defined.

Lemma nextCAPI_after_failed env k tr added ctx name :
  forallb failedProbeCall added = true ->
  nextCAPI env k ((tr ++ added) ++ [EvGet ctx name]) = nextCAPI env k tr.
Proof.
  intros F. rewrite nextCAPI_after_get. unfold nextCAPI.
  rewrite count_app,
    (count_none _ (isWatchForCAPI k) _ F (failedProbeCall_no_capi k)).
  rewrite Nat.add_0_r. reflexivity.
Qed.

Lemma capiAttached_counts cp p :
  count isAttach (capiAttached cp p) = ptrCount cp + ptrCount p + 1 /\
  count isGet (capiAttached cp p) = 0 /\
  count isGoWatchCRD (capiAttached cp p) = 0 /\
  count isKill (capiAttached cp p) = 0 /\
  sleptSeconds (capiAttached cp p) = 0%Z.
Proof. destruct cp, p; repeat split; reflexivity. Qed.

(** X2. When the first [k] probes fail with errors other than not-found and
    the next one finds the CRD, the pipeline makes [k + 1] probes, sleeps
    [min k 20] seconds in all, registers each watch once (its registrations
    succeeding) and returns without starting the CRD watcher: the capability
    is attached however many probes failed before, also beyond maxRetries. *)
Theorem errors_then_present_attaches (env : Env) (ctx : Context)
        (cp : Ptr ClusterProfileReconciler) (p : Ptr ProfileReconciler)
        (cs : Ptr ClusterSummaryReconciler) (k fuel : nat) :
  (Z.of_nat k < 2 ^ 63)%Z ->
  cs <> None ->
  (failsThenAnswers env ctx capiCRDName k None ->
   (cp <> None -> watchForCAPI env ClusterProfile 0 = None) ->
   (p <> None -> watchForCAPI env Profile 0 = None) ->
   watchForCAPI env ClusterSummary 0 = None ->
   let r := capiWatchers env ctx cp p cs (k + S fuel) [] in
   fst r = Returned tt /\
   count isGet (snd r) = k + 1 /\
   sleptSeconds (snd r) = Z.min (Z.of_nat k) maxRetries /\
   count isAttach (snd r) = ptrCount cp + ptrCount p + 1 /\
   count isGoWatchCRD (snd r) = 0 /\ count isKill (snd r) = 0) /\
  (failsThenAnswers env ctx fluxCRDName k None ->
   watchForFlux env 0 = None ->
   let r := fluxWatchers env ctx cs (k + S fuel) [] in
   fst r = Returned tt /\
   count isGet (snd r) = k + 1 /\
   sleptSeconds (snd r) = Z.min (Z.of_nat k) maxRetries /\
   count isAttach (snd r) = 1 /\
   count isGoWatchCRD (snd r) = 0 /\ count isKill (snd r) = 0).
Proof.
  intros Hk Hcs. split.
  - intros [Herr Hans] Hcp Hp Hs. cbv zeta. unfold capiWatchers.
    destruct (capi_errors_run env ctx cp p cs k (S fuel) 0%Z [])
      as [added [E [F [G Sl]]]]; [lia|lia|exact Herr|].
    rewrite E.
    rewrite (capi_step_present env ctx cp p cs fuel _ ([] ++ added))
      by (simpl; rewrite G; exact Hans).
    unfold bind.
    rewrite capiAttach_ok;
      rewrite ?(nextCAPI_after_failed env _ [] added ctx capiCRDName F);
      try assumption.
    destruct (capiAttached_counts cp p) as [A1 [A2 [A3 [A4 A5]]]].
    simpl fst. simpl snd. simpl app.
    rewrite !count_app, !sleptSeconds_app, G, Sl, A1, A2, A3, A4, A5.
    rewrite (count_none _ isGoWatchCRD _ F failedProbeCall_no_watch),
      (count_none _ isAttach _ F failedProbeCall_no_attach),
      (count_none failedProbeCall isKill _ F)
      by (intros []; simpl; congruence).
    unfold maxRetries. rewrite ?count_cons, ?count_nil. simpl.
      repeat split; lia.
  - intros [Herr Hans] Hf. cbv zeta. unfold fluxWatchers.
    destruct (flux_errors_run env ctx cs k (S fuel) 0%Z [])
      as [added [E [F [G Sl]]]]; [lia|lia|exact Herr|].
    rewrite E.
    rewrite (flux_step_present env ctx cs fuel _ ([] ++ added))
      by (simpl; rewrite G; exact Hans).
    unfold bind.
    rewrite fluxAttach_ok; [|exact Hcs|].
    + simpl fst. simpl snd. simpl app.
      rewrite !count_app, !sleptSeconds_app, G, Sl.
      rewrite (count_none _ isGoWatchCRD _ F failedProbeCall_no_watch),
        (count_none _ isAttach _ F failedProbeCall_no_attach),
        (count_none failedProbeCall isKill _ F)
        by (intros []; simpl; congruence).
      unfold maxRetries. rewrite ?count_cons, ?count_nil. simpl.
      repeat split; lia.
    + simpl app. rewrite !count_app,
        (count_none _ isWatchForFlux _ F failedProbeCall_no_flux).
      rewrite ?count_cons, ?count_nil. simpl. exact Hf.
Qed.

Lemma errors_then_present_attaches_witness :
  (Z.of_nat 25 < 2 ^ 63)%Z /\
  Some TheClusterSummaryReconciler <> None /\
  failsThenAnswers (lateEnv 25 None) live capiCRDName 25 None /\
  failsThenAnswers (lateEnv 25 None) live fluxCRDName 25 None /\
  count isAttach
    (snd (capiWatchers (lateEnv 25 None) live
            (Some TheClusterProfileReconciler) (Some TheProfileReconciler)
            (Some TheClusterSummaryReconciler) (25 + 1) [])) = 3 /\
  fst (fluxWatchers (lateEnv 25 None) live
         (Some TheClusterSummaryReconciler) (25 + 1) []) = Returned tt.
Proof.
  assert (Hk : (Z.of_nat 25 < 2 ^ 63)%Z) by (vm_compute; reflexivity).
  assert (Hcs : Some TheClusterSummaryReconciler <> None) by discriminate.
  split; [exact Hk|]. split; [exact Hcs|].
  split; [apply lateEnv_failsThenAnswers|].
  split; [apply lateEnv_failsThenAnswers|].
  split.
  - apply (proj1 (errors_then_present_attaches (lateEnv 25 None) live
                    (Some TheClusterProfileReconciler)
                    (Some TheProfileReconciler)
                    (Some TheClusterSummaryReconciler) 25 0 Hk Hcs));
      try reflexivity.
    apply lateEnv_failsThenAnswers.
  - apply (proj2 (errors_then_present_attaches (lateEnv 25 None) live
                    (Some TheClusterProfileReconciler)
                    (Some TheProfileReconciler)
                    (Some TheClusterSummaryReconciler) 25 0 Hk Hcs));
      try reflexivity.
    apply lateEnv_failsThenAnswers.
Defined.

(** ** Invariants of every run *)

Lemma appends_capiAttach_only env cp p cs :
  appends attachCall (capiAttach env cp p cs).
Proof. unfold capiAttach, log_Info. appends_tac. Qed.

Lemma appends_fluxAttach_only env cs :
  appends attachCall (fluxAttach env cs).
Proof. unfold fluxAttach, log_Info. appends_tac. Qed.

Lemma attachCall_no_sleep e : attachCall e = true -> isSleep e = false.
Proof. destruct e; simpl; congruence. Qed.

Lemma attachCall_probeOrAttach e :
  attachCall e = true -> probeOrAttachCall e = true.
Proof. destruct e; simpl; congruence. Qed.

Lemma failedProbeCall_probeOrAttach e :
  failedProbeCall e = true -> probeOrAttachCall e = true.
Proof. destruct e; simpl; congruence. Qed.

Lemma forallb_weaken (P Q : Event -> bool) (l : Trace) :
  (forall e, P e = true -> Q e = true) ->
  forallb P l = true -> forallb Q l = true.
Proof.
  intros H F. rewrite forallb_forall in *. auto.
Qed.

Lemma capi_sleep_bound env ctx cp p cs fuel :
  forall retries tr,
    (0 <= retries)%Z -> (retries + Z.of_nat fuel < 2 ^ 63)%Z ->
    (sleptSeconds (snd (capiWatchers_loop env ctx cp p cs fuel retries tr))
     <= sleptSeconds tr + Z.max 0 (maxRetries - retries))%Z.
Proof.
  unfold maxRetries.
  induction fuel as [|fuel IH]; intros retries tr H0 Hb.
  - simpl. lia.
  - destruct (getCRD env ctx (count isGet tr) capiCRDName) as [[|cause]|]
      eqn:H.
    + destruct (capi_absent_run env ctx cp p cs fuel retries tr H)
        as [kills [T [K _]]].
      rewrite T, !sleptSeconds_app,
        (sleptSeconds_none _ _ K isKill_no_sleep).
      simpl sleptSeconds. lia.
    + rewrite (capi_step_error env ctx cp p cs fuel retries tr cause H).
      rewrite wrap_int_small by lia.
      specialize (IH (retries + 1)%Z
                     (tr ++ failedProbe ctx capiCRDName "CAPI" cause retries)).
      destruct (failedProbe_shape ctx capiCRDName "CAPI" cause retries)
        as [_ S2].
      rewrite sleptSeconds_app, S2 in IH. unfold maxRetries in IH.
      destruct (retries <? 20)%Z eqn:L;
        [apply Z.ltb_lt in L|apply Z.ltb_ge in L]; lia.
    + rewrite (capi_step_present env ctx cp p cs fuel retries tr H).
      unfold bind.
      destruct (appends_capiAttach_only env cp p cs
                  (tr ++ [EvGet ctx capiCRDName])) as [a [E F]].
      destruct (capiAttach env cp p cs (tr ++ [EvGet ctx capiCRDName]))
        as [[[|]| | |] t]; simpl in E; subst t; simpl snd;
        try (rewrite !sleptSeconds_app,
               (sleptSeconds_none _ _ F attachCall_no_sleep);
             simpl sleptSeconds; lia).
      specialize (IH retries ((tr ++ [EvGet ctx capiCRDName]) ++ a)).
      rewrite !sleptSeconds_app,
        (sleptSeconds_none _ _ F attachCall_no_sleep) in IH.
      simpl sleptSeconds in IH. lia.
Qed.

Lemma flux_sleep_bound env ctx cs fuel :
  forall retries tr,
    (0 <= retries)%Z -> (retries + Z.of_nat fuel < 2 ^ 63)%Z ->
    (sleptSeconds (snd (fluxWatchers_loop env ctx cs fuel retries tr))
     <= sleptSeconds tr + Z.max 0 (maxRetries - retries))%Z.
Proof.
  unfold maxRetries.
  induction fuel as [|fuel IH]; intros retries tr H0 Hb.
  - simpl. lia.
  - destruct (getCRD env ctx (count isGet tr) fluxCRDName) as [[|cause]|]
      eqn:H.
    + destruct (flux_absent_run env ctx cs fuel retries tr H)
        as [kills [T [K _]]].
      rewrite T, !sleptSeconds_app,
        (sleptSeconds_none _ _ K isKill_no_sleep).
      simpl sleptSeconds. lia.
    + rewrite (flux_step_error env ctx cs fuel retries tr cause H).
      rewrite wrap_int_small by lia.
      specialize (IH (retries + 1)%Z
                     (tr ++ failedProbe ctx fluxCRDName "Flux" cause retries)).
      destruct (failedProbe_shape ctx fluxCRDName "Flux" cause retries)
        as [_ S2].
      rewrite sleptSeconds_app, S2 in IH. unfold maxRetries in IH.
      destruct (retries <? 20)%Z eqn:L;
        [apply Z.ltb_lt in L|apply Z.ltb_ge in L]; lia.
    + rewrite (flux_step_present env ctx cs fuel retries tr H).
      unfold bind.
      destruct (appends_fluxAttach_only env cs
                  (tr ++ [EvGet ctx fluxCRDName])) as [a [E F]].
      destruct (fluxAttach env cs (tr ++ [EvGet ctx fluxCRDName]))
        as [[[|]| | |] t]; simpl in E; subst t; simpl snd;
        try (rewrite !sleptSeconds_app,
               (sleptSeconds_none _ _ F attachCall_no_sleep);
             simpl sleptSeconds; lia).
      specialize (IH retries ((tr ++ [EvGet ctx fluxCRDName]) ++ a)).
      rewrite !sleptSeconds_app,
        (sleptSeconds_none _ _ F attachCall_no_sleep) in IH.
      simpl sleptSeconds in IH. lia.
Qed.

(** X3. Whatever the API server and the reconcilers answer, a pipeline
    spends at most maxRetries = 20 seconds in time.Sleep over its whole run
    (as long as the retry counter has not wrapped around, that is for fewer
    than 2^63 passes through the loop). *)
Theorem pipeline_sleeps_at_most_maxRetries_seconds (env : Env)
        (ctx : Context) (cp : Ptr ClusterProfileReconciler)
        (p : Ptr ProfileReconciler) (cs : Ptr ClusterSummaryReconciler)
        (fuel : nat) :
  (Z.of_nat fuel < 2 ^ 63)%Z ->
  (sleptSeconds (snd (capiWatchers env ctx cp p cs fuel [])) <= maxRetries)%Z
  /\
  (sleptSeconds (snd (fluxWatchers env ctx cs fuel [])) <= maxRetries)%Z.
Proof.
  intros H. split.
  - pose proof (capi_sleep_bound env ctx cp p cs fuel 0%Z []) as B.
    unfold capiWatchers. unfold maxRetries in *. simpl sleptSeconds in B.
    lia.
  - pose proof (flux_sleep_bound env ctx cs fuel 0%Z []) as B.
    unfold fluxWatchers. unfold maxRetries in *. simpl sleptSeconds in B.
    lia.
Qed.

Lemma pipeline_sleeps_at_most_maxRetries_seconds_witness :
  (Z.of_nat 40 < 2 ^ 63)%Z /\
  (sleptSeconds
     (snd (capiWatchers transientEnv live (Some TheClusterProfileReconciler)
             (Some TheProfileReconciler) (Some TheClusterSummaryReconciler)
             40 [])) <= maxRetries)%Z /\
  (sleptSeconds
     (snd (fluxWatchers transientEnv live (Some TheClusterSummaryReconciler)
             40 [])) <= maxRetries)%Z.
Proof.
  assert (H : (Z.of_nat 40 < 2 ^ 63)%Z) by (vm_compute; reflexivity).
  split; [exact H|].
  apply (pipeline_sleeps_at_most_maxRetries_seconds transientEnv live
           (Some TheClusterProfileReconciler) (Some TheProfileReconciler)
           (Some TheClusterSummaryReconciler) 40 H).
Defined.

Lemma watchShape_prefix ctx h a b :
  forallb probeOrAttachCall a = true ->
  watchShape ctx h b -> watchShape ctx h (a ++ b).
Proof.
  intros Fa [Fb|[pre [kills [E [Fp Fk]]]]].
  - left. rewrite forallb_app, Fa, Fb. reflexivity.
  - right. exists (a ++ pre), kills. subst b.
    rewrite app_assoc, forallb_app, Fa, Fp. repeat split. exact Fk.
Qed.

Lemma watchShape_counts ctx h tr :
  watchShape ctx h tr ->
  count isGoWatchCRD tr <= 1 /\
  (count isGoWatchCRD tr = 0 -> count isKill tr = 0).
Proof.
  intros [F|[pre [kills [E [Fp Fk]]]]].
  - rewrite (count_none _ isGoWatchCRD _ F),
      (count_none _ isKill _ F);
      try (intros []; simpl; congruence).
    split; [lia|reflexivity].
  - subst tr. rewrite !count_app, !count_cons.
    rewrite (count_none _ isGoWatchCRD _ Fp),
      (count_none _ isGoWatchCRD _ Fk isKill_no_watch);
      try (intros []; simpl; congruence).
    simpl. split; lia.
Qed.

Lemma capi_shape env ctx cp p cs fuel :
  forall retries tr,
    exists added,
      snd (capiWatchers_loop env ctx cp p cs fuel retries tr) = tr ++ added /\
      watchShape ctx CapiCRDHandler added.
Proof.
  induction fuel as [|fuel IH]; intros retries tr.
  - exists []. rewrite app_nil_r. split; [reflexivity|left; reflexivity].
  - destruct (getCRD env ctx (count isGet tr) capiCRDName) as [[|cause]|]
      eqn:H.
    + destruct (capi_absent_run env ctx cp p cs fuel retries tr H)
        as [kills [T [K _]]].
      eexists. split; [exact T|]. right.
      exists [EvGet ctx capiCRDName;
              EvLog LvlLogInfo
                "CAPI currently not present. Starting CRD watcher"], kills.
      repeat split. exact K.
    + rewrite (capi_step_error env ctx cp p cs fuel retries tr cause H).
      destruct (IH (wrap_int (retries + 1))
                   (tr ++ failedProbe ctx capiCRDName "CAPI" cause retries))
        as [added [E W]].
      exists (failedProbe ctx capiCRDName "CAPI" cause retries ++ added).
      rewrite E, app_assoc. split; [reflexivity|].
      apply watchShape_prefix; [|exact W].
      apply (forallb_weaken failedProbeCall);
        [apply failedProbeCall_probeOrAttach|].
      apply failedProbe_shape.
    + rewrite (capi_step_present env ctx cp p cs fuel retries tr H).
      unfold bind.
      destruct (appends_capiAttach_only env cp p cs
                  (tr ++ [EvGet ctx capiCRDName])) as [a [E F]].
      assert (Fa : forallb probeOrAttachCall ([EvGet ctx capiCRDName] ++ a)
                   = true).
      { simpl. apply (forallb_weaken attachCall);
          [apply attachCall_probeOrAttach|exact F]. }
      destruct (capiAttach env cp p cs (tr ++ [EvGet ctx capiCRDName]))
        as [[[|]| | |] t]; simpl in E; subst t; simpl snd;
        try (exists ([EvGet ctx capiCRDName] ++ a); rewrite app_assoc;
             split; [reflexivity|left; exact Fa]).
      destruct (IH retries ((tr ++ [EvGet ctx capiCRDName]) ++ a))
        as [added [E W]].
      exists (([EvGet ctx capiCRDName] ++ a) ++ added).
      rewrite E, !app_assoc. split; [reflexivity|].
      rewrite <- app_assoc.
      apply (watchShape_prefix ctx CapiCRDHandler
               ([EvGet ctx capiCRDName] ++ a) added Fa W).
Qed.

Lemma flux_shape env ctx cs fuel :
  forall retries tr,
    exists added,
      snd (fluxWatchers_loop env ctx cs fuel retries tr) = tr ++ added /\
      watchShape ctx FluxCRDHandler added.
Proof.
  induction fuel as [|fuel IH]; intros retries tr.
  - exists []. rewrite app_nil_r. split; [reflexivity|left; reflexivity].
  - destruct (getCRD env ctx (count isGet tr) fluxCRDName) as [[|cause]|]
      eqn:H.
    + destruct (flux_absent_run env ctx cs fuel retries tr H)
        as [kills [T [K _]]].
      eexists. split; [exact T|]. right.
      exists [EvGet ctx fluxCRDName;
              EvLog LvlLogInfo
                "Flux currently not present. Starting CRD watcher"], kills.
      repeat split. exact K.
    + rewrite (flux_step_error env ctx cs fuel retries tr cause H).
      destruct (IH (wrap_int (retries + 1))
                   (tr ++ failedProbe ctx fluxCRDName "Flux" cause retries))
        as [added [E W]].
      exists (failedProbe ctx fluxCRDName "Flux" cause retries ++ added).
      rewrite E, app_assoc. split; [reflexivity|].
      apply watchShape_prefix; [|exact W].
      apply (forallb_weaken failedProbeCall);
        [apply failedProbeCall_probeOrAttach|].
      apply failedProbe_shape.
    + rewrite (flux_step_present env ctx cs fuel retries tr H).
      unfold bind.
      destruct (appends_fluxAttach_only env cs
                  (tr ++ [EvGet ctx fluxCRDName])) as [a [E F]].
      assert (Fa : forallb probeOrAttachCall ([EvGet ctx fluxCRDName] ++ a)
                   = true).
      { simpl. apply (forallb_weaken attachCall);
          [apply attachCall_probeOrAttach|exact F]. }
      destruct (fluxAttach env cs (tr ++ [EvGet ctx fluxCRDName]))
        as [[[|]| | |] t]; simpl in E; subst t; simpl snd;
        try (exists ([EvGet ctx fluxCRDName] ++ a); rewrite app_assoc;
             split; [reflexivity|left; exact Fa]).
      destruct (IH retries ((tr ++ [EvGet ctx fluxCRDName]) ++ a))
        as [added [E W]].
      exists (([EvGet ctx fluxCRDName] ++ a) ++ added).
      rewrite E, !app_assoc. split; [reflexivity|].
      rewrite <- app_assoc.
      apply (watchShape_prefix ctx FluxCRDHandler
               ([EvGet ctx fluxCRDName] ++ a) added Fa W).
Qed.

(** X4. In every run a pipeline starts the CRD watcher at most once, with
    its own handler, and starting it is the last thing its loop does: the
    calls before it are probes, log lines, sleeps and registrations, the
    calls after it are termination signals sent by the handler.  In
    particular no signal is sent by a pipeline that did not start the
    watcher. *)
Theorem watcher_started_at_most_once_and_last (env : Env) (ctx : Context)
        (cp : Ptr ClusterProfileReconciler) (p : Ptr ProfileReconciler)
        (cs : Ptr ClusterSummaryReconciler) (fuel : nat) :
  let capi := snd (capiWatchers env ctx cp p cs fuel []) in
  let flux := snd (fluxWatchers env ctx cs fuel []) in
  watchShape ctx CapiCRDHandler capi /\
  watchShape ctx FluxCRDHandler flux /\
  count isGoWatchCRD capi <= 1 /\
  count isGoWatchCRD flux <= 1 /\
  (count isGoWatchCRD capi = 0 -> count isKill capi = 0) /\
  (count isGoWatchCRD flux = 0 -> count isKill flux = 0).
Proof.
  cbv zeta. unfold capiWatchers, fluxWatchers.
  destruct (capi_shape env ctx cp p cs fuel 0%Z []) as [a [Ea Wa]].
  destruct (flux_shape env ctx cs fuel 0%Z []) as [b [Eb Wb]].
  rewrite Ea, Eb. simpl app.
  destruct (watchShape_counts ctx CapiCRDHandler a Wa) as [A1 A2].
  destruct (watchShape_counts ctx FluxCRDHandler b Wb) as [B1 B2].
  repeat split; assumption.
Qed.

Lemma watcher_started_at_most_once_and_last_witness :
  count isKill
    (snd (capiWatchers presentEnv live (Some TheClusterProfileReconciler)
            (Some TheProfileReconciler) (Some TheClusterSummaryReconciler)
            3 [])) = 0 /\
  count isKill
    (snd (fluxWatchers presentEnv live (Some TheClusterSummaryReconciler)
            3 [])) = 0.
Proof.
  split.
  - apply (watcher_started_at_most_once_and_last presentEnv live
             (Some TheClusterProfileReconciler) (Some TheProfileReconciler)
             (Some TheClusterSummaryReconciler) 3).
    reflexivity.
  - apply (watcher_started_at_most_once_and_last presentEnv live
             (Some TheClusterProfileReconciler) (Some TheProfileReconciler)
             (Some TheClusterSummaryReconciler) 3).
    reflexivity.
Defined.

(** ** What a pipeline never does *)

Lemma capiAttach_returns env cp p cs tr :
  cs <> None -> exists c, fst (capiAttach env cp p cs tr) = Returned c.
Proof.
  intros H. destruct cs as [cs|]; [|congruence].
  destruct cp as [cp|], p as [p|];
    unfold capiAttach, bind, log_Info, emit, ret, WatchForCAPI; simpl;
    repeat match goal with
           | |- context [watchForCAPI env ?k ?n] =>
               destruct (watchForCAPI env k n); simpl
           end;
    eexists; reflexivity.
Qed.

Lemma fluxAttach_returns env cs tr :
  cs <> None -> exists c, fst (fluxAttach env cs tr) = Returned c.
Proof.
  intros H. destruct cs as [cs|]; [|congruence].
  unfold fluxAttach, bind, log_Info, emit, ret, WatchForFlux; simpl.
  destruct (watchForFlux env _); eexists; reflexivity.
Qed.

Lemma neitherNilNorExit_returned : neitherNilNorExit (Returned tt).
Proof. split; [discriminate|intros code; discriminate]. Qed.

Lemma neitherNilNorExit_running : neitherNilNorExit Running.
Proof. split; [discriminate|intros code; discriminate]. Qed.

Lemma neitherNilNorExit_kill_panic :
  neitherNilNorExit (Panicked "kill -TERM failed").
Proof. split; [discriminate|intros code; discriminate]. Qed.

Lemma capi_outcome env ctx cp p cs :
  cs <> None ->
  forall fuel retries tr,
    neitherNilNorExit
      (fst (capiWatchers_loop env ctx cp p cs fuel retries tr)).
Proof.
  intros Hcs. induction fuel as [|fuel IH]; intros retries tr.
  - apply neitherNilNorExit_running.
  - destruct (getCRD env ctx (count isGet tr) capiCRDName) as [[|cause]|]
      eqn:H.
    + destruct (capi_absent_run env ctx cp p cs fuel retries tr H)
        as [kills [_ [_ [O|O]]]]; rewrite O;
        [apply neitherNilNorExit_returned
        |apply neitherNilNorExit_kill_panic].
    + rewrite (capi_step_error env ctx cp p cs fuel retries tr cause H).
      apply IH.
    + rewrite (capi_step_present env ctx cp p cs fuel retries tr H).
      unfold bind.
      destruct (capiAttach_returns env cp p cs
                  (tr ++ [EvGet ctx capiCRDName]) Hcs) as [c Hc].
      destruct (capiAttach env cp p cs (tr ++ [EvGet ctx capiCRDName]))
        as [o t]. simpl in Hc. subst o.
      destruct c; [apply IH|apply neitherNilNorExit_returned].
Qed.

Lemma flux_outcome env ctx cs :
  cs <> None ->
  forall fuel retries tr,
    neitherNilNorExit (fst (fluxWatchers_loop env ctx cs fuel retries tr)).
Proof.
  intros Hcs. induction fuel as [|fuel IH]; intros retries tr.
  - apply neitherNilNorExit_running.
  - destruct (getCRD env ctx (count isGet tr) fluxCRDName) as [[|cause]|]
      eqn:H.
    + destruct (flux_absent_run env ctx cs fuel retries tr H)
        as [kills [_ [_ [O|O]]]]; rewrite O;
        [apply neitherNilNorExit_returned
        |apply neitherNilNorExit_kill_panic].
    + rewrite (flux_step_error env ctx cs fuel retries tr cause H).
      apply IH.
    + rewrite (flux_step_present env ctx cs fuel retries tr H).
      unfold bind.
      destruct (fluxAttach_returns env cs
                  (tr ++ [EvGet ctx fluxCRDName]) Hcs) as [c Hc].
      destruct (fluxAttach env cs (tr ++ [EvGet ctx fluxCRDName]))
        as [o t]. simpl in Hc. subst o.
      destruct c; [apply IH|apply neitherNilNorExit_returned].
Qed.

(** X5. Given a non-nil ClusterSummary reconciler (the other two may be
    nil or not), a pipeline never calls a method on a nil reconciler and
    never exits the process, whatever the API server and the reconcilers
    answer: its outcome is never a nil dereference and never an exit. *)
Theorem pipeline_never_nil_dereference_nor_exit (env : Env) (ctx : Context)
        (cp : Ptr ClusterProfileReconciler) (p : Ptr ProfileReconciler)
        (cs : Ptr ClusterSummaryReconciler) (fuel : nat) :
  cs <> None ->
  neitherNilNorExit (fst (capiWatchers env ctx cp p cs fuel [])) /\
  neitherNilNorExit (fst (fluxWatchers env ctx cs fuel [])).
Proof.
  intros Hcs. split.
  - apply capi_outcome, Hcs.
  - apply flux_outcome, Hcs.
Qed.

Lemma pipeline_never_nil_dereference_nor_exit_witness :
  Some TheClusterSummaryReconciler <> None /\
  neitherNilNorExit
    (fst (capiWatchers killFailsEnv live (Some TheClusterProfileReconciler)
            None (Some TheClusterSummaryReconciler) 4 [])) /\
  neitherNilNorExit
    (fst (fluxWatchers killFailsEnv live (Some TheClusterSummaryReconciler)
            4 [])).
Proof.
  assert (H : Some TheClusterSummaryReconciler <> None) by discriminate.
  split; [exact H|].
  apply (pipeline_never_nil_dereference_nor_exit killFailsEnv live
           (Some TheClusterProfileReconciler) None
           (Some TheClusterSummaryReconciler) 4 H).
Defined.

(** ** The handlers under repeated events *)

Lemma handler_run env h gvk tr :
  handlerOf env h gvk tr =
  if String.eqb (Group gvk) (groupOf h) then
    (match killErr env (count isKill tr) with
     | Some _ => Panicked "kill -TERM failed"
     | None => Returned tt
     end, tr ++ [EvKill (pid env) SIGTERM])
  else (Returned tt, tr).
Proof.
  destruct h; simpl handlerOf; simpl groupOf;
    match goal with
    | |- context [String.eqb ?a ?b] => destruct (String.eqb_spec a b)
    end.
  - apply capiCRDHandler_match. assumption.
  - apply capiCRDHandler_other. assumption.
  - apply fluxCRDHandler_match. assumption.
  - apply fluxCRDHandler_other. assumption.
Qed.

Lemma deliver_all_kills_succeed env h :
  (forall n, killErr env n = None) ->
  forall evs tr,
    deliver (handlerOf env h) evs tr =
    (Returned tt,
     tr ++ map (fun _ => EvKill (pid env) SIGTERM) (matching h evs)).
Proof.
  intros Hk. induction evs as [|gvk evs IH]; intros tr.
  - simpl. rewrite app_nil_r. reflexivity.
  - simpl deliver. unfold bind. rewrite handler_run. unfold matching.
    simpl filter. fold (matching h evs).
    destruct (String.eqb (Group gvk) (groupOf h)).
    + rewrite Hk, IH, <- app_assoc. reflexivity.
    + apply IH.
Qed.

Lemma deliver_kill_bound env h :
  forall evs tr,
    count isKill (snd (deliver (handlerOf env h) evs tr)) <=
    count isKill tr + length (matching h evs).
Proof.
  induction evs as [|gvk evs IH]; intros tr.
  - simpl. lia.
  - simpl deliver. unfold bind. rewrite handler_run. unfold matching.
    simpl filter. fold (matching h evs).
    destruct (String.eqb (Group gvk) (groupOf h)).
    + destruct (killErr env (count isKill tr)).
      * simpl snd. rewrite count_snoc. simpl. lia.
      * specialize (IH (tr ++ [EvKill (pid env) SIGTERM])).
        rewrite count_snoc in IH. simpl in *. lia.
    + apply IH.
Qed.

(** X6. The handlers keep no state between calls: called on a sequence of
    CRD events, a handler sends one SIGTERM for every event of its own
    group while the kills succeed (so two matching events send two
    signals), ignores the events of other groups, and never sends more
    signals than there are matching events. *)
Theorem handler_signals_once_per_matching_event (env : Env)
        (h : HandlerName) (evs : list GroupVersionKind) (tr : Trace) :
  ((forall n, killErr env n = None) ->
   deliver (handlerOf env h) evs tr =
   (Returned tt,
    tr ++ map (fun _ => EvKill (pid env) SIGTERM) (matching h evs))) /\
  count isKill (snd (deliver (handlerOf env h) evs tr)) <=
  count isKill tr + length (matching h evs).
Proof.
  split.
  - intros Hk. apply deliver_all_kills_succeed, Hk.
  - apply deliver_kill_bound.
Qed.

Lemma handler_signals_once_per_matching_event_witness :
  (forall n, killErr presentEnv n = None) /\
  deliver (handlerOf presentEnv CapiCRDHandler)
    [capiCreated; otherCreated; capiCreated; fluxCreated] [] =
  (Returned tt, [EvKill 1 SIGTERM; EvKill 1 SIGTERM]).
Proof.
  assert (H : forall n, killErr presentEnv n = None) by reflexivity.
  split; [exact H|].
  apply (proj1 (handler_signals_once_per_matching_event presentEnv
                  CapiCRDHandler
                  [capiCreated; otherCreated; capiCreated; fluxCreated] [])
           H).
Defined.

(** ** main *)

Ltac run_main :=
  unfold main, mainReconcilers, setupChecks, setupIndexes, startWatchers, go,
    setupOrExit, log_Info, log_Error, bind, emit, ret, os_Exit.

(** X7. main reaches mgr.Start exactly when every set-up step succeeds, and
    then both pipelines have been started and main ends as mgr.Start does
    (exit code 1 on its error).  If any set-up step fails (a controller's
    SetupWithManager, a health or readiness check, the indexes), main exits
    with code 1 without having started a pipeline or the manager. *)
Theorem main_starts_manager_iff_setups_succeed (env : Env)
        (shardKey : string) :
  let r := main env shardKey [] in
  (setupsSucceed env shardKey ->
   count isGo (snd r) = 2 /\ count isMgrStart (snd r) = 1 /\
   fst r = match mgrStartErr env with
           | Some _ => Exited 1
           | None => Returned tt
           end) /\
  (~ setupsSucceed env shardKey ->
   fst r = Exited 1 /\ count isGo (snd r) = 0 /\
   count isMgrStart (snd r) = 0).
Proof.
  cbv zeta. unfold setupsSucceed. run_main.
  destruct (String.eqb_spec shardKey "") as [K|K];
    destruct (setupErr env ClusterProfile) eqn:E1,
      (setupErr env Profile) eqn:E2,
      (setupErr env ClusterSummary) eqn:E3,
      (healthzErr env) eqn:E4, (readyzErr env) eqn:E5,
      (indexErr env) eqn:E6, (mgrStartErr env) eqn:E7;
    simpl; split; intros HS;
    try (exfalso; intuition congruence);
    repeat split; reflexivity.
Qed.

Lemma main_starts_manager_iff_setups_succeed_witness :
  setupsSucceed presentEnv "shard1" /\
  ~ setupsSucceed profileSetupFailsEnv "" /\
  count isMgrStart (snd (main presentEnv "shard1" [])) = 1 /\
  fst (main profileSetupFailsEnv "" []) = Exited 1.
Proof.
  assert (A : setupsSucceed presentEnv "shard1").
  { repeat split; reflexivity. }
  assert (B : ~ setupsSucceed profileSetupFailsEnv "").
  { intros [H _]. destruct (H eq_refl) as [_ H2]. discriminate. }
  split; [exact A|]. split; [exact B|]. split.
  - apply (proj1 (main_starts_manager_iff_setups_succeed presentEnv "shard1")
             A).
  - apply (proj2 (main_starts_manager_iff_setups_succeed
                    profileSetupFailsEnv "") B).
Defined.

Lemma main_goroutines env shardKey g :
  In (EvGo g) (snd (main env shardKey [])) -> startedByMain shardKey g.
Proof.
  run_main.
  destruct (String.eqb_spec shardKey "") as [K|K];
    destruct (setupErr env ClusterProfile), (setupErr env Profile),
      (setupErr env ClusterSummary), (healthzErr env), (readyzErr env),
      (indexErr env), (mgrStartErr env);
    simpl; intros H;
    repeat (destruct H as [H|H]; try discriminate H);
    try contradiction;
    inversion H; subst g; simpl;
    repeat split; intros; try discriminate; try congruence.
Qed.

(** X8. Every goroutine main starts gets a non-nil ClusterSummary
    reconciler, and ClusterProfile and Profile reconcilers that are nil
    exactly when a shard key is set; run with these arguments, the pipeline
    never calls a method on a nil reconciler and never exits the process,
    whatever the API server and the reconcilers answer. *)
Theorem goroutines_of_main_never_nil_dereference_nor_exit (env : Env)
        (shardKey : string) (ctx : Context) (fuel : nat) (g : Goroutine) :
  In (EvGo g) (snd (main env shardKey [])) ->
  startedByMain shardKey g /\
  neitherNilNorExit (fst (goroutineBody env ctx g fuel [])).
Proof.
  intros H. pose proof (main_goroutines env shardKey g H) as S.
  split; [exact S|].
  destruct g as [cp p cs|cs]; simpl in *.
  - apply capi_outcome. apply S.
  - apply flux_outcome. exact S.
Qed.

Lemma goroutines_of_main_never_nil_dereference_nor_exit_witness :
  In (EvGo (GoCapiWatchers None None (Some TheClusterSummaryReconciler)))
     (snd (main presentEnv "shard1" [])) /\
  neitherNilNorExit
    (fst (goroutineBody presentEnv live
            (GoCapiWatchers None None (Some TheClusterSummaryReconciler))
            3 [])).
Proof.
  assert (H : In (EvGo (GoCapiWatchers None None
                          (Some TheClusterSummaryReconciler)))
                 (snd (main presentEnv "shard1" []))).
  { vm_compute. tauto. }
  split; [exact H|].
  apply (goroutines_of_main_never_nil_dereference_nor_exit presentEnv
           "shard1" live 3 _ H).
Defined.

(** ** Registrations repeated by a retry *)

Lemma bind_snd_extends {A B} (P : Event -> bool) (m : M A) (f : A -> M B)
      (tr : Trace) :
  (forall a, appends P (f a)) ->
  exists more, snd (bind m f tr) = snd (m tr) ++ more.
Proof.
  intros Hf. unfold bind.
  destruct (m tr) as [[a| | |] t]; simpl;
    try (exists []; rewrite app_nil_r; reflexivity).
  destruct (Hf a t) as [more [E _]]. exists more. exact E.
Qed.

Lemma capiAttach_registers_cluster_profile env cp p cs tr :
  cp <> None ->
  exists rest,
    snd (capiAttach env cp p cs tr) =
    tr ++ [EvLog LvlLogInfo "CAPI present.";
           EvLog LvlLogInfo "start clusterProfile CAPI watcher.";
           EvWatchForCAPI ClusterProfile] ++ rest.
Proof.
  intros H. destruct cp as [cp|]; [|congruence].
  destruct p as [p|], cs as [cs|];
    unfold capiAttach, bind, log_Info, emit, ret, WatchForCAPI, panic; simpl;
    repeat match goal with
           | |- context [watchForCAPI env ?k ?n] =>
               destruct (watchForCAPI env k n); simpl
           end;
    eexists; rewrite <- ?app_assoc; simpl; reflexivity.
Qed.

Lemma capiFailedAttach_cluster_profile cp p stage e :
  cp <> None -> stage <> ClusterProfile ->
  count (isWatchForCAPI ClusterProfile) (capiFailedAttach cp p stage e) = 1.
Proof.
  intros Hcp Hs. destruct cp as [cp|]; [|congruence].
  destruct stage, p; try congruence; reflexivity.
Qed.

(** X9. A retry repeats registrations that had already succeeded: when the
    ClusterProfile reconciler is non-nil, a pass fails on the Profile or on
    the ClusterSummary registration, and the next probe still finds the CRD,
    the next pass calls WatchForCAPI on the ClusterProfile controller a
    second time although its first registration succeeded. *)
Theorem retry_registers_cluster_profile_again (env : Env) (ctx : Context)
        (cp : Ptr ClusterProfileReconciler) (p : Ptr ProfileReconciler)
        (cs : Ptr ClusterSummaryReconciler) (fuel : nat) (retries : Z)
        (tr : Trace) (stage : ControllerKind) (e : string) :
  cp <> None -> stage <> ClusterProfile ->
  capiFailsAt env cp p cs tr stage e ->
  getCRD env ctx (count isGet tr) capiCRDName = None ->
  getCRD env ctx (count isGet tr + 1) capiCRDName = None ->
  nextCAPI env ClusterProfile tr = None /\
  count (isWatchForCAPI ClusterProfile) tr + 2 <=
  count (isWatchForCAPI ClusterProfile)
    (snd (capiWatchers_loop env ctx cp p cs (S (S fuel)) retries tr)).
Proof.
  intros Hcp Hs Hfail Hg1 Hg2. split.
  { destruct stage; simpl in Hfail; try congruence; apply Hfail, Hcp. }
  rewrite (capi_step_present env ctx cp p cs (S fuel) retries tr Hg1).
  unfold bind at 1.
  rewrite (capiAttach_fails env cp p cs _ stage e
             (capiFailsAt_after_get env cp p cs tr stage e ctx
                capiCRDName Hfail)).
  assert (G : count isGet
                ((tr ++ [EvGet ctx capiCRDName]) ++
                 capiFailedAttach cp p stage e) = count isGet tr + 1).
  { rewrite !count_app, count_cons, count_nil.
    rewrite (count_none attachCall isGet (capiFailedAttach cp p stage e)).
    - simpl. lia.
    - destruct stage, cp, p; reflexivity.
    - intros []; simpl; congruence. }
  rewrite capi_step_present by (rewrite G; exact Hg2).
  destruct (bind_snd_extends pipelineCall (capiAttach env cp p cs)
              (fun c => match c with
                        | Continue =>
                            capiWatchers_loop env ctx cp p cs fuel retries
                        | Return => ret tt
                        end)
              (((tr ++ [EvGet ctx capiCRDName]) ++
                capiFailedAttach cp p stage e) ++ [EvGet ctx capiCRDName]))
    as [more E].
  { intros [|]; [apply appends_capiWatchers_loop|apply appends_ret]. }
  rewrite E.
  destruct (capiAttach_registers_cluster_profile env cp p cs
              (((tr ++ [EvGet ctx capiCRDName]) ++
                capiFailedAttach cp p stage e) ++ [EvGet ctx capiCRDName])
              Hcp) as [rest R].
  rewrite R, !count_app,
    (capiFailedAttach_cluster_profile cp p stage e Hcp Hs),
    !count_cons.
  simpl. lia.
Qed.

Lemma retry_registers_cluster_profile_again_witness :
  Some TheClusterProfileReconciler <> None /\
  Profile <> ClusterProfile /\
  capiFailsAt profileWatchFailsEnv (Some TheClusterProfileReconciler)
    (Some TheProfileReconciler) (Some TheClusterSummaryReconciler) []
    Profile "no kind is registered" /\
  count (isWatchForCAPI ClusterProfile) [] + 2 <=
  count (isWatchForCAPI ClusterProfile)
    (snd (capiWatchers_loop profileWatchFailsEnv live
            (Some TheClusterProfileReconciler) (Some TheProfileReconciler)
            (Some TheClusterSummaryReconciler) 2 0 [])).
Proof.
  assert (A : Some TheClusterProfileReconciler <> None) by discriminate.
  assert (B : Profile <> ClusterProfile) by discriminate.
  assert (C : capiFailsAt profileWatchFailsEnv (Some TheClusterProfileReconciler)
                (Some TheProfileReconciler)
                (Some TheClusterSummaryReconciler) []
                Profile "no kind is registered").
  { repeat split; try reflexivity. discriminate. }
  split; [exact A|]. split; [exact B|]. split; [exact C|].
  apply (retry_registers_cluster_profile_again profileWatchFailsEnv live
           (Some TheClusterProfileReconciler) (Some TheProfileReconciler)
           (Some TheClusterSummaryReconciler) 0 0 [] Profile
           "no kind is registered" A B C eq_refl eq_refl).
Defined.
